(** * pterodactyl-sdk-go: the panel client, embedded and verified

    A shallow embedding of [pkg/pterodactyl/pterodactyl_client.go].  The
    client talks to three collaborators that live outside the package: the
    network ([net/http]), the JSON decoder ([encoding/json]) and the local
    file system ([os], [io]).  They are gathered in an environment [Env] of
    oracles; everything the package itself does is written out as a program
    in a small state monad over the observable [State] (opened files, file
    contents and the trace of effects, in the order they happen). *)

From Stdlib Require Import ZArith Lia.
From stdpp Require Import base option list strings gmap fin_maps pretty.

Open Scope Z_scope.

(** ** Go values *)

(** An [error] value, by the place it is made. *)
Inductive error : Type :=
  | ErrTransport (msg : string)   (* http.DefaultClient.Do *)
  | ErrRead (msg : string)        (* reading a response body *)
  | ErrDecode (msg : string)      (* json.Unmarshal *)
  | ErrFs (msg : string)          (* os.Create, File.Write *)
  | ErrClosed                     (* os.ErrClosed: file already closed *)
  | ErrorString (msg : string).   (* errors.New, fmt.Errorf *)

(** [time.Time]: seconds and nanoseconds since the zero instant
    (January 1, year 1, 00:00:00 UTC). *)
Record Time : Type := { t_sec : Z; t_nsec : Z }.

Definition Time_IsZero (t : Time) : bool :=
  (t_sec t =? 0) && (t_nsec t =? 0).

Definition zero_Time : Time := {| t_sec := 0; t_nsec := 0 |}.

(** A Go slice that may be [nil]: [None] is the nil slice, [Some []] an
    allocated slice of length zero. *)
Definition slice (A : Type) : Type := option (list A).

(** ** The package's types

    Their declarations are in a file of the package that is not part of the
    sources at hand; the records below carry the fields the client reads. *)

Record PterodactylServer : Type := { Url : string; ApiKey : string }.

Record ServerAttributes : Type := { server_UUID : string }.
Record Server : Type := { server_Attributes : ServerAttributes }.
Record Servers : Type := { Servers_Servers : slice Server }.

Record BackupAttributes : Type := { backup_UUID : string; CompletedAt : Time }.
Record Backup : Type := { backup_Attributes : BackupAttributes }.
Record Backups : Type := { Backups_Backups : slice Backup }.

Record BackupUrlAttributes : Type := { URL : string }.
Record BackupUrl : Type := { backupurl_Attributes : BackupUrlAttributes }.

(** Modelled from the spec: the declaration of [ApiErrors] is missing; the
    spec describes the payload as an ordered collection of {code, detail}
    pairs. *)
Record ApiError : Type := { Code : string; Detail : string }.
Record ApiErrors : Type := { Errors : list ApiError }.

(** Zero values ([var x T]). *)
Definition zero_Server : Server := {| server_Attributes := {| server_UUID := EmptyString |} |}.
Definition zero_Servers : Servers := {| Servers_Servers := None |}.
Definition zero_Backup : Backup :=
  {| backup_Attributes := {| backup_UUID := EmptyString; CompletedAt := zero_Time |} |}.
Definition zero_Backups : Backups := {| Backups_Backups := None |}.
Definition zero_BackupUrl : BackupUrl := {| backupurl_Attributes := {| URL := EmptyString |} |}.
Definition zero_ApiErrors : ApiErrors := {| Errors := [] |}.

(** ** Package constants and variables *)

Definition WaitForBackupSeconds_default : Z := 5.

Definition ApiEndpointBase : string := "api".
Definition ApiEndpointServers : string := "client".
Definition ApiEndpointServer : string := "client/servers".
Definition ApiEndpointBackups : string := "backups".

Definition http_MethodGet : string := "GET".
Definition http_MethodPost : string := "POST".
Definition http_StatusOK : Z := 200.

(** ** [fmt] *)

(** [fmt.Sprintf("%s/%s", a, b)] and [fmt.Sprintf("%s/%s/%s", a, b, c)]. *)
Definition sprintf_s_s (a b : string) : string := a +:+ "/" +:+ b.
Definition sprintf_s_s_s (a b c : string) : string := a +:+ "/" +:+ b +:+ "/" +:+ c.

(** ** URL construction *)

Definition buildApiUrl (pterodactylServer : PterodactylServer)
    (endpoint : string) (subPaths : list string) : string :=
  let url := sprintf_s_s_s (Url pterodactylServer) ApiEndpointBase endpoint in
  fold_left (fun url path => sprintf_s_s url path) subPaths url.

(** ** The collaborators *)

(** [url.Values]: the form fields of a request. *)
Definition Values : Type := gmap string (list string).

(** [*http.Request].  [req_Body] is [None] for a nil body and otherwise the
    form values whose encoding the body reader yields. *)
Record Request : Type := {
  req_Method : string;
  req_URL : string;
  req_Header : list (string * string);
  req_Body : option Values
}.

(** [*http.Response]: the status, the bytes its body yields before it ends,
    and the error (if any) that ends it instead of a clean end of stream. *)
Record Response : Type := {
  StatusCode : Z;
  Body : string;
  BodyErr : option error
}.

(** What the outside world decides. *)
Record Env : Type := {
  (** [http.NewRequest]: the error for a method and URL it rejects. *)
  NewRequest_err : string -> string -> option error;
  (** [http.DefaultClient.Do]: the outcome of the n-th round trip. *)
  round_trip : nat -> Request -> error + Response;
  (** [os.Create]: the error for a path that cannot be created. *)
  Create_err : string -> option error;
  (** Writing to a path: [Some (k, e)] when the file takes [k] bytes and
      then fails with [e]. *)
  Write_fault : string -> option (nat * error)
}.

(** [json.Unmarshal(data, &v)]: the value left in [v] and the error.  The
    generic [T any] of [callApi] becomes a class of decodable targets. *)
Class Unmarshal (T : Type) : Type :=
  json_Unmarshal : string -> T -> T * option error.

Inductive event : Type :=
  | EvDo (req : Request)
  | EvBodyRead
  | EvBodyClose
  | EvCreate (path : string)
  | EvWrite (path : string) (data : string)
  | EvFileClose (f : nat)
  | EvSleep (d : Z)
  | EvLog (level : string) (msg : string).

(** The observable state.  [fd_table] lists the files opened so far, each
    with its path and whether it is still open; a [*os.File] is its index. *)
Record State : Type := {
  WaitForBackupSeconds : Z;
  files : gmap string string;
  fd_table : list (string * bool);
  trace : list event
}.

Definition initial_State : State :=
  {| WaitForBackupSeconds := WaitForBackupSeconds_default;
     files := ∅; fd_table := []; trace := [] |}.

Definition set_files (fs : gmap string string) (s : State) : State :=
  {| WaitForBackupSeconds := WaitForBackupSeconds s; files := fs;
     fd_table := fd_table s; trace := trace s |}.
Definition set_fd_table (t : list (string * bool)) (s : State) : State :=
  {| WaitForBackupSeconds := WaitForBackupSeconds s; files := files s;
     fd_table := t; trace := trace s |}.
Definition emit (e : event) (s : State) : State :=
  {| WaitForBackupSeconds := WaitForBackupSeconds s; files := files s;
     fd_table := fd_table s; trace := trace s ++ [e] |}.

(** The requests handed to the HTTP client so far, oldest first. *)
Definition requests (tr : list event) : list Request :=
  omap (fun e => match e with EvDo r => Some r | _ => None end) tr.

Definition is_sleep (e : event) : bool :=
  match e with EvSleep _ => true | _ => false end.

(** Events that create or change a file. *)
Definition is_fs_event (e : event) : bool :=
  match e with EvCreate _ | EvWrite _ _ => true | _ => false end.

(** ** The monad of client programs *)

Inductive outcome (A : Type) : Type :=
  | Done (a : A)
  | Panic (msg : string)
  | OutOfFuel.
Arguments Done {A} a.
Arguments Panic {A} msg.
Arguments OutOfFuel {A}.

Definition M (A : Type) : Type := State -> outcome A * State.

#[global] Instance M_ret : MRet M := fun A a s => (Done a, s).
#[global] Instance M_bind : MBind M := fun A B f m s =>
  match m s with
  | (Done a, s') => f a s'
  | (Panic msg, s') => (Panic msg, s')
  | (OutOfFuel, s') => (OutOfFuel, s')
  end.

Definition panic {A} (msg : string) : M A := fun s => (Panic msg, s).
Definition out_of_fuel {A} : M A := fun s => (OutOfFuel, s).
Definition get_state : M State := fun s => (Done s, s).
Definition modify (f : State -> State) : M unit := fun s => (Done tt, f s).
Definition tell (e : event) : M unit := modify (emit e).

(** [defer cleanup; body]: the deferred call runs when the body returns
    or panics. *)
Definition defer {A} (cleanup : M unit) (body : M A) : M A := fun s =>
  match body s with
  | (OutOfFuel, s') => (OutOfFuel, s')
  | (r, s') =>
      match cleanup s' with
      | (Done _, s'') => (r, s'')
      | (Panic msg, s'') => (Panic msg, s'')
      | (OutOfFuel, s'') => (OutOfFuel, s'')
      end
  end.

Definition nil_dereference : string :=
  "runtime error: invalid memory address or nil pointer dereference".

(** ** [fmt] on the package's values *)

(** [%s] applied to a struct prints its fields in braces, separated by
    spaces; applied to a slice, its elements in brackets.  These render the
    [ApiErrors] record above. *)
Definition fmt_s_ApiError (e : ApiError) : string :=
  "{" +:+ Code e +:+ " " +:+ Detail e +:+ "}".
Definition fmt_s_ApiErrors (a : ApiErrors) : string :=
  "{[" +:+ String.concat " " (map fmt_s_ApiError (Errors a)) +:+ "]}".

(** [t] contains [s] as a contiguous piece. *)
Definition occurs_in (s t : string) : Prop :=
  exists pre post, t = pre +:+ s +:+ post.

(** ** 64-bit arithmetic of [time.Duration] *)

Definition wrap64 (z : Z) : Z := (z + 2 ^ 63) mod 2 ^ 64 - 2 ^ 63.
Definition time_Second : Z := 1000000000.
Definition Duration_mul (a b : Z) : Z := wrap64 (a * b).

Section Client.

Context (env : Env).
Context `{Unmarshal ApiErrors}.

(** ** Primitive operations *)

(** [http.NewRequest]: the request, or nil when the method or URL is
    rejected. *)
Definition http_NewRequest (method url : string) (body : option Values)
    : option Request * option error :=
  match NewRequest_err env method url with
  | Some e => (None, Some e)
  | None =>
      (Some {| req_Method := method; req_URL := url; req_Header := [];
               req_Body := body |}, None)
  end.

(** [req.Header.Add(key, value)] through a request pointer: a nil pointer
    panics. *)
Definition Header_Add (req : option Request) (key value : string)
    : M (option Request) :=
  match req with
  | None => panic nil_dereference
  | Some r =>
      mret (Some {| req_Method := req_Method r; req_URL := req_URL r;
                    req_Header := req_Header r ++ [(key, value)];
                    req_Body := req_Body r |})
  end.

Definition http_DefaultClient_Do (req : option Request)
    : M (option Response * option error) :=
  match req with
  | None => panic nil_dereference
  | Some r =>
      s ← get_state;
      tell (EvDo r);;
      match round_trip env (length (requests (trace s))) r with
      | inl e => mret (None, Some e)
      | inr res => mret (Some res, None)
      end
  end.

Definition Body_Close : M unit := tell EvBodyClose.

Definition ioutil_ReadAll (res : Response) : M (string * option error) :=
  tell EvBodyRead;; mret (Body res, BodyErr res).

Definition os_Create (path : string) : M (option nat * option error) :=
  match Create_err env path with
  | Some e => mret (None, Some e)
  | None =>
      s ← get_state;
      modify (set_files (<[path := EmptyString]> (files s)));;
      modify (set_fd_table (fd_table s ++ [(path, true)]));;
      tell (EvCreate path);;
      mret (Some (length (fd_table s)), None)
  end.

(** [f.Write(data)]: the number of bytes written and the error. *)
Definition File_Write (f : nat) (data : string) : M (nat * option error) :=
  s ← get_state;
  match fd_table s !! f with
  | Some (path, true) =>
      let old := default EmptyString (files s !! path) in
      let fits :=
        match Write_fault env path with
        | Some (k, e) =>
            if decide (String.length old + String.length data <= k)%nat
            then None else Some ((k - String.length old)%nat, e)
        | None => None
        end in
      match fits with
      | None =>
          modify (set_files (<[path := old +:+ data]> (files s)));;
          tell (EvWrite path data);;
          mret (String.length data, None)
      | Some (n, e) =>
          let part := String.substring 0 n data in
          modify (set_files (<[path := old +:+ part]> (files s)));;
          tell (EvWrite path part);;
          mret (n, Some e)
      end
  | _ => mret (0%nat, Some ErrClosed)
  end.

(** [f.Close()] for a possibly nil [*os.File]. *)
Definition File_Close (f : option nat) : M (option error) :=
  match f with
  | None => mret (Some (ErrFs "invalid argument"))
  | Some f =>
      s ← get_state;
      match fd_table s !! f with
      | Some (path, true) =>
          modify (set_fd_table (<[f := (path, false)]> (fd_table s)));;
          tell (EvFileClose f);;
          mret None
      | _ => mret (Some ErrClosed)
      end
  end.

(** [io.Copy(out, res.Body)]: what the body yields goes to the file; a
    failed write stops the copy, otherwise the body's own error ends it. *)
Definition io_Copy (out : nat) (res : Response) : M (nat * option error) :=
  tell EvBodyRead;;
  '(n, err) ← File_Write out (Body res);
  match err with
  | Some e => mret (n, Some e)
  | None => mret (n, BodyErr res)
  end.

Definition time_Sleep (d : Z) : M unit := tell (EvSleep d).
Definition log_Trace (msg : string) : M unit := tell (EvLog "trace" msg).
Definition log_Debugf (msg : string) : M unit := tell (EvLog "debug" msg).

(** ** The transport call *)

Definition callApi {T : Type} `{Unmarshal T} (apiObject : T)
    (pterodactylServer : PterodactylServer) (method endpoint : string)
    (subPaths : list string) (data : gmap string string)
    : M (T * option error) :=
  let apiUrl := buildApiUrl pterodactylServer endpoint subPaths in
  let dataToSend : Values :=
    map_fold (fun k v acc => <[k := [v]]> acc) ∅ data in
  let '(req, _) := http_NewRequest method apiUrl (Some dataToSend) in
  req ← Header_Add req "Accept" "application/json";
  req ← Header_Add req "Authorization" ("Bearer " +:+ ApiKey pterodactylServer);
  '(res, err) ← http_DefaultClient_Do req;
  match err, res with
  | Some e, _ => mret (apiObject, Some e)
  | None, None => panic nil_dereference
  | None, Some res =>
      defer Body_Close (
        '(body, _) ← ioutil_ReadAll res;
        if negb (StatusCode res =? http_StatusOK) then
          let '(apiErrors, err) := json_Unmarshal body zero_ApiErrors in
          match err with
          | Some e => mret (apiObject, Some e)
          | None =>
              mret (apiObject,
                    Some (ErrorString ("api call failed with errors: "
                                       +:+ fmt_s_ApiErrors apiErrors)))
          end
        else
          let '(apiObject, err) := json_Unmarshal body apiObject in
          mret (apiObject, err))
  end.

(** What [callApi] makes of a response once its body has been read. *)
Definition api_result {T : Type} `{Unmarshal T} (apiObject : T)
    (res : Response) : T * option error :=
  if negb (StatusCode res =? http_StatusOK) then
    let '(apiErrors, err) := json_Unmarshal (Body res) zero_ApiErrors in
    match err with
    | Some e => (apiObject, Some e)
    | None =>
        (apiObject,
         Some (ErrorString ("api call failed with errors: "
                            +:+ fmt_s_ApiErrors apiErrors)))
    end
  else json_Unmarshal (Body res) apiObject.

(** ** Resource accessors *)

Context `{Unmarshal Servers, Unmarshal Server, Unmarshal Backups,
          Unmarshal Backup, Unmarshal BackupUrl}.

Definition GetServers (pterodactylServer : PterodactylServer)
    : M (slice Server * option error) :=
  '(servers, err) ← callApi zero_Servers pterodactylServer http_MethodGet
                      ApiEndpointServers [] ∅;
  match err with
  | Some e => mret (None, Some e)
  | None =>
      match Servers_Servers servers with
      | None => mret (None, Some (ErrorString "no servers returned"))
      | Some l => mret (Some l, None)
      end
  end.


Definition GetServerBackups (pterodactylServer : PterodactylServer)
    (server : Server) : M (slice Backup * option error) :=
  '(backups, err) ← callApi zero_Backups pterodactylServer http_MethodGet
                      ApiEndpointServer
                      [server_UUID (server_Attributes server); ApiEndpointBackups] ∅;
  match err with
  | Some e => mret (None, Some e)
  | None =>
      match Backups_Backups backups with
      | None => mret (None, Some (ErrorString "no backups returned"))
      | Some l => mret (Some l, None)
      end
  end.

Definition GetServerBackup (pterodactylServer : PterodactylServer)
    (server : Server) (backupId : string) : M (Backup * option error) :=
  '(backup, err) ← callApi zero_Backup pterodactylServer http_MethodGet
                     ApiEndpointServer
                     [server_UUID (server_Attributes server); ApiEndpointBackups;
                      backupId] ∅;
  match err with
  | Some e => mret (backup, Some e)
  | None => mret (backup, None)
  end.


Definition BackupServer (pterodactylServer : PterodactylServer)
    (server : Server) : M (Backup * option error) :=
  '(backup, err) ← callApi zero_Backup pterodactylServer http_MethodPost
                     (sprintf_s_s_s ApiEndpointServer
                        (server_UUID (server_Attributes server))
                        ApiEndpointBackups) [] ∅;
  match err with
  | Some e => mret (backup, Some e)
  | None => mret (backup, None)
  end.

(** ** Download flow *)

Definition DownloadServerBackup (pterodactylServer : PterodactylServer)
    (server : Server) (backupId destination : string)
    : M (option nat * option error) :=
  '(backupUrl, err) ← callApi zero_BackupUrl pterodactylServer http_MethodGet
                        ApiEndpointServer
                        [server_UUID (server_Attributes server); ApiEndpointBackups;
                         backupId; "download"] ∅;
  match err with
  | Some e => mret (None, Some e)
  | None =>
      log_Trace ("DownloadServerBackup -> Attempting to download: '"
                 +:+ URL (backupurl_Attributes backupUrl) +:+ "'");;
      let '(req, _) :=
        http_NewRequest http_MethodGet (URL (backupurl_Attributes backupUrl)) None in
      req ← Header_Add req "Accept" "application/json";
      '(res, err) ← http_DefaultClient_Do req;
      match err, res with
      | Some e, _ => mret (None, Some e)
      | None, None => panic nil_dereference
      | None, Some res =>
          defer Body_Close (
            log_Trace ("DownloadServerBackup -> Status Code: '"
                       +:+ pretty (StatusCode res) +:+ "'");;
            if StatusCode res =? http_StatusOK then
              '(out, err) ← os_Create destination;
              log_Trace ("DownloadServerBackup -> Creating file: '"
                         +:+ destination +:+ "'");;
              match err, out with
              | Some e, _ => mret (None, Some e)
              | None, None => panic nil_dereference
              | None, Some f =>
                  defer (File_Close (Some f);; mret tt) (
                    log_Trace ("DownloadServerBackup -> Copying repsonse body to file: '"
                               +:+ destination +:+ "'");;
                    '(_, err) ← io_Copy f res;
                    match err with
                    | Some e => mret (None, Some e)
                    | None => mret (Some f, None)
                    end)
              end
            else
              mret (None, Some (ErrorString ("download failed with status code "
                                             +:+ pretty (StatusCode res)))))
      end
  end.

(** ** Backup-completion poller *)

(** The [for] loop of [BackupServerWithWait]; [fuel] bounds the number of
    iterations the model follows. *)
Fixpoint wait_loop (fuel : nat) (pterodactylServer : PterodactylServer)
    (server : Server) (backup : Backup) : M (option Backup * option error) :=
  match fuel with
  | O => out_of_fuel
  | S fuel =>
      '(backup, err) ← GetServerBackup pterodactylServer server
                         (backup_UUID (backup_Attributes backup));
      match err with
      | Some e => mret (None, Some e)
      | None =>
          if negb (Time_IsZero (CompletedAt (backup_Attributes backup))) then
            s ← get_state;
            time_Sleep (Duration_mul (wrap64 (WaitForBackupSeconds s)) time_Second);;
            log_Debugf "Waiting for backup...";;
            mret (Some backup, None)
          else wait_loop fuel pterodactylServer server backup
      end
  end.

Definition BackupServerWithWait (fuel : nat)
    (pterodactylServer : PterodactylServer) (server : Server)
    : M (option Backup * option error) :=
  '(backup, err) ← BackupServer pterodactylServer server;
  match err with
  | Some e => mret (None, Some e)
  | None => wait_loop fuel pterodactylServer server backup
  end.

(** The poller as the specification documents it (its section 4.4): a
    pending read sleeps for the fixed interval and fetches again, a
    completed read returns the record at once. *)
Fixpoint documented_wait_loop (fuel : nat) (pterodactylServer : PterodactylServer)
    (server : Server) (backup : Backup) : M (option Backup * option error) :=
  match fuel with
  | O => out_of_fuel
  | S fuel =>
      '(backup, err) ← GetServerBackup pterodactylServer server
                         (backup_UUID (backup_Attributes backup));
      match err with
      | Some e => mret (None, Some e)
      | None =>
          if Time_IsZero (CompletedAt (backup_Attributes backup)) then
            s ← get_state;
            time_Sleep (Duration_mul (wrap64 (WaitForBackupSeconds s)) time_Second);;
            documented_wait_loop fuel pterodactylServer server backup
          else mret (Some backup, None)
      end
  end.

Definition documented_BackupServerWithWait (fuel : nat)
    (pterodactylServer : PterodactylServer) (server : Server)
    : M (option Backup * option error) :=
  '(backup, err) ← BackupServer pterodactylServer server;
  match err with
  | Some e => mret (None, Some e)
  | None => documented_wait_loop fuel pterodactylServer server backup
  end.

(** [polls ps server b s bs s']: from state [s], with [b] the record the
    loop holds, successive fetches succeed and report the records [bs] in
    order, each one asked for by the id the previous record carries; [s'] is
    the state after the last of them. *)
Inductive polls (pterodactylServer : PterodactylServer) (server : Server)
    : Backup -> State -> list Backup -> State -> Prop :=
  | polls_nil b s : polls pterodactylServer server b s [] s
  | polls_cons b s b1 s1 bs s2 :
      GetServerBackup pterodactylServer server
        (backup_UUID (backup_Attributes b)) s = (Done (b1, None), s1) ->
      polls pterodactylServer server b1 s1 bs s2 ->
      polls pterodactylServer server b s (b1 :: bs) s2.

Definition is_pending (b : Backup) : Prop :=
  Time_IsZero (CompletedAt (backup_Attributes b)) = true.

End Client.

(** The request [callApi] builds for its arguments. *)
Definition api_request (pterodactylServer : PterodactylServer)
    (method endpoint : string) (subPaths : list string)
    (data : gmap string string) : Request :=
  {| req_Method := method;
     req_URL := buildApiUrl pterodactylServer endpoint subPaths;
     req_Header := [("Accept", "application/json");
                    ("Authorization", "Bearer " +:+ ApiKey pterodactylServer)];
     req_Body := Some (map_fold (fun k v acc => <[k := [v]]> acc) ∅ data) |}.

(** The request [DownloadServerBackup] sends to a signed URL. *)
Definition download_request (url : string) : Request :=
  {| req_Method := http_MethodGet; req_URL := url;
     req_Header := [("Accept", "application/json")]; req_Body := None |}.

(** The requests a program hands to the HTTP client when run from [s]. *)
Definition sent_by {A : Type} (m : M A) (s : State) : list Request :=
  drop (length (requests (trace s))) (requests (trace (m s).2)).


(** The state a download leaves when it has created the destination and
    copied [part] into it. *)
Definition copied_state (s1 : State) (url destination : string)
    (res : Response) (part : string) : State :=
  {| WaitForBackupSeconds := WaitForBackupSeconds s1;
     files := <[destination := part]> (files s1);
     fd_table := fd_table s1 ++ [(destination, false)];
     trace :=
       trace s1
       ++ [EvLog "trace" ("DownloadServerBackup -> Attempting to download: '"
                          +:+ url +:+ "'");
           EvDo (download_request url);
           EvLog "trace" ("DownloadServerBackup -> Status Code: '"
                          +:+ pretty (StatusCode res) +:+ "'");
           EvCreate destination;
           EvLog "trace" ("DownloadServerBackup -> Creating file: '"
                          +:+ destination +:+ "'");
           EvLog "trace"
             ("DownloadServerBackup -> Copying repsonse body to file: '"
              +:+ destination +:+ "'");
           EvBodyRead; EvWrite destination part;
           EvFileClose (length (fd_table s1)); EvBodyClose] |}.

(** The request [GetServerBackup] builds for a backup id. *)
Definition fetch_request (pterodactylServer : PterodactylServer)
    (server : Server) (backupId : string) : Request :=
  api_request pterodactylServer http_MethodGet ApiEndpointServer
    [server_UUID (server_Attributes server); ApiEndpointBackups; backupId] ∅.

(** ** A sample panel

    A concrete environment for worked examples.  Bodies are JSON documents,
    written with ' for the double quote; the decoders tabulate what
    [json.Unmarshal] leaves in the target for each of them and reject
    every other body. *)
Module Sample.

Definition ps : PterodactylServer := {| Url := "https://panel"; ApiKey := "key" |}.
Definition srv : Server := {| server_Attributes := {| server_UUID := "srv-1" |} |}.

Definition done_at : Time := {| t_sec := 63850154400; t_nsec := 0 |}.
Definition pending : Backup :=
  {| backup_Attributes := {| backup_UUID := "bk-1"; CompletedAt := zero_Time |} |}.
Definition completed : Backup :=
  {| backup_Attributes := {| backup_UUID := "bk-1"; CompletedAt := done_at |} |}.

Definition body_pending : string :=
  "{'attributes': {'uuid': 'bk-1', 'completed_at': null}}".
Definition body_completed : string :=
  "{'attributes': {'uuid': 'bk-1', 'completed_at': '2024-05-01T10:00:00Z'}}".
Definition body_servers_empty : string := "{'object': 'list', 'data': []}".
Definition body_servers_absent : string := "{'object': 'list'}".
Definition body_server : string := "{'attributes': {'uuid': 'srv-1'}}".
Definition body_url : string := "{'attributes': {'url': 'https://node/dl?token=t'}}".
Definition body_errors : string :=
  "{'errors': [{'code': 'NotFoundHttpException', 'detail': 'backup not found'}]}".
Definition body_archive : string := "archive-bytes".

Definition syntax_error : option error := Some (ErrDecode "invalid character").

#[export] Instance unmarshal_Backup : Unmarshal Backup := fun body v =>
  if decide (body = body_pending) then (pending, None)
  else if decide (body = body_completed) then (completed, None)
  else (v, syntax_error).

#[export] Instance unmarshal_Servers : Unmarshal Servers := fun body v =>
  if decide (body = body_servers_empty) then ({| Servers_Servers := Some [] |}, None)
  else if decide (body = body_servers_absent) then (v, None)
  else (v, syntax_error).

#[export] Instance unmarshal_Backups : Unmarshal Backups := fun body v =>
  if decide (body = body_servers_empty) then ({| Backups_Backups := Some [] |}, None)
  else if decide (body = body_servers_absent) then (v, None)
  else (v, syntax_error).

#[export] Instance unmarshal_Server : Unmarshal Server := fun body v =>
  if decide (body = body_server) then (srv, None) else (v, syntax_error).

#[export] Instance unmarshal_BackupUrl : Unmarshal BackupUrl := fun body v =>
  if decide (body = body_url)
  then ({| backupurl_Attributes := {| URL := "https://node/dl?token=t" |} |}, None)
  else (v, syntax_error).

#[export] Instance unmarshal_ApiErrors : Unmarshal ApiErrors := fun body v =>
  if decide (body = body_errors)
  then ({| Errors := [ {| Code := "NotFoundHttpException";
                          Detail := "backup not found" |} ] |}, None)
  else (v, syntax_error).

(** [url.Parse], and so [http.NewRequest], rejects a URL that holds an
    ASCII control character. *)
Definition has_control_character (url : string) : bool :=
  existsb (fun c => Nat.ltb (Ascii.nat_of_ascii c) 32 || Nat.eqb (Ascii.nat_of_ascii c) 127)
          (String.list_ascii_of_string url).

Definition reply (status : Z) (body : string) : error + Response :=
  inr {| StatusCode := status; Body := body; BodyErr := None |}.

(** The panel answers the n-th round trip with the n-th scripted reply and
    refuses connections afterwards. *)
Definition panel (replies : list (error + Response)) : Env :=
  {| NewRequest_err := fun _ url =>
       if has_control_character url
       then Some (ErrorString "net/url: invalid control character in URL")
       else None;
     round_trip := fun n _ =>
       default (inl (ErrTransport "connection refused")) (replies !! n);
     Create_err := fun _ => None;
     Write_fault := fun _ => None |}.

Definition not_found : Response :=
  {| StatusCode := 404; Body := body_errors; BodyErr := None |}.

(** A response whose body ends in a read error after a whole document. *)
Definition cut_short : Response :=
  {| StatusCode := 200; Body := body_server;
     BodyErr := Some (ErrRead "unexpected EOF") |}.

Definition destination : string := "/backups/bk-1.tar.gz".

(** The requests of the poller. *)
Definition post_backup : Request :=
  api_request ps http_MethodPost "client/servers/srv-1/backups" [] ∅.
Definition get_backup : Request :=
  api_request ps http_MethodGet ApiEndpointServer ["srv-1"; "backups"; "bk-1"] ∅.

(** A body that ends in a read error after the whole archive. *)
Definition archive_cut : Response :=
  {| StatusCode := 200; Body := body_archive;
     BodyErr := Some (ErrRead "unexpected EOF") |}.

(** The panel of [panel], on a machine where no file can be created. *)
Definition panel_read_only (replies : list (error + Response)) : Env :=
  {| NewRequest_err := NewRequest_err (panel replies);
     round_trip := round_trip (panel replies);
     Create_err := fun _ => Some (ErrFs "permission denied");
     Write_fault := fun _ => None |}.

(** A base URL that ends in a line feed. *)
Definition bad_ps : PterodactylServer :=
  {| Url := String (Ascii.ascii_of_nat 10) EmptyString; ApiKey := "key" |}.

End Sample.

(** * Verification *)

Example buildApiUrl_ex :
  buildApiUrl Sample.ps "client/servers" ["u"; "backups"]
  = "https://panel/api/client/servers/u/backups".
Proof. reflexivity. Qed.

(** ** Strings *)

Lemma append_cons (a : Ascii.ascii) (s t : string) :
  String a s +:+ t = String a (s +:+ t).
Proof. reflexivity. Qed.

Lemma append_nil_r (s : string) : s +:+ EmptyString = s.
Proof. induction s as [|a s IH]; [reflexivity|]. by rewrite append_cons, IH. Qed.

Lemma append_assoc (s t u : string) : (s +:+ t) +:+ u = s +:+ t +:+ u.
Proof. induction s as [|a s IH]; [reflexivity|]. by rewrite !append_cons, IH. Qed.

Lemma occurs_in_refl (s : string) : occurs_in s s.
Proof. exists EmptyString, EmptyString. by rewrite append_nil_r. Qed.

Lemma occurs_in_trans (s t u : string) :
  occurs_in s t -> occurs_in t u -> occurs_in s u.
Proof.
  intros (a & b & ->) (c & d & ->).
  exists (c +:+ a), (b +:+ d). by rewrite !append_assoc.
Qed.

Lemma occurs_in_app_l (s t u : string) : occurs_in s t -> occurs_in s (u +:+ t).
Proof.
  intros (a & b & ->). exists (u +:+ a), b. by rewrite !append_assoc.
Qed.

Lemma occurs_in_app_r (s t u : string) : occurs_in s t -> occurs_in s (t +:+ u).
Proof.
  intros (a & b & ->). exists a, (b +:+ u). by rewrite !append_assoc.
Qed.

(** An element of a joined list occurs in the result. *)
Lemma occurs_in_concat (sep x : string) (l : list string) :
  x ∈ l -> occurs_in x (String.concat sep l).
Proof.
  induction l as [|y l IH]; [by intros ?%elem_of_nil|].
  intros [->|Hin]%elem_of_cons.
  - destruct l as [|z l]; simpl; [apply occurs_in_refl|].
    apply occurs_in_app_r, occurs_in_refl.
  - destruct l as [|z l]; [by apply elem_of_nil in Hin|].
    change (String.concat sep (y :: z :: l))
      with (y +:+ sep +:+ String.concat sep (z :: l)).
    by apply occurs_in_app_l, occurs_in_app_l, IH.
Qed.

(** ** URL construction *)

Lemma fold_sprintf_s_s (segs : list string) (url : string) :
  fold_left (fun url path => sprintf_s_s url path) segs url
  = url +:+ String.concat EmptyString (map (String.append "/") segs).
Proof.
  revert url. induction segs as [|seg segs IH]; intros url.
  - simpl. by rewrite append_nil_r.
  - simpl fold_left. rewrite IH. unfold sprintf_s_s.
    rewrite !append_assoc. f_equal.
    destruct segs as [|seg' segs]; simpl.
    + by rewrite append_nil_r.
    + by rewrite !append_assoc.
Qed.

(** C2: the URL is the base, [/api/], the endpoint, and then each segment
    in order behind one [/]; with no segments nothing follows the
    endpoint. *)
Theorem buildApiUrl_exact (pterodactylServer : PterodactylServer)
    (endpoint : string) (subPaths : list string) :
  buildApiUrl pterodactylServer endpoint subPaths
  = Url pterodactylServer +:+ "/api/" +:+ endpoint
    +:+ String.concat EmptyString (map (fun seg => "/" +:+ seg) subPaths)
  /\ buildApiUrl pterodactylServer endpoint []
     = Url pterodactylServer +:+ "/api/" +:+ endpoint.
Proof.
  unfold buildApiUrl. split.
  - rewrite fold_sprintf_s_s. unfold sprintf_s_s_s, ApiEndpointBase.
    by rewrite !append_assoc.
  - reflexivity.
Qed.

(** ** The transport call *)

(** Unfolds the monad and the effect-free plumbing of a client program. *)
Ltac run_M :=
  cbv beta iota zeta delta
    [mbind mret M_bind M_ret tell modify get_state panic out_of_fuel defer
     Header_Add http_DefaultClient_Do Body_Close ioutil_ReadAll
     log_Trace log_Debugf time_Sleep fst snd].

Tactic Notation "run_M" "in" hyp(H) :=
  cbv beta iota zeta delta
    [mbind mret M_bind M_ret tell modify get_state panic out_of_fuel defer
     Header_Add http_DefaultClient_Do Body_Close ioutil_ReadAll
     log_Trace log_Debugf time_Sleep fst snd] in H.

Section Transport.

Context (env : Env).
Context `{!Unmarshal ApiErrors}.

Lemma callApi_rejected {T : Type} `{!Unmarshal T} (apiObject : T) ps method
    endpoint subPaths data s :
  is_Some (NewRequest_err env method (buildApiUrl ps endpoint subPaths)) ->
  callApi env apiObject ps method endpoint subPaths data s
  = (Panic nil_dereference, s).
Proof.
  intros [e He]. unfold callApi, http_NewRequest. rewrite He. reflexivity.
Qed.

Lemma callApi_accepted {T : Type} `{!Unmarshal T} (apiObject : T) ps method
    endpoint subPaths data s :
  NewRequest_err env method (buildApiUrl ps endpoint subPaths) = None ->
  callApi env apiObject ps method endpoint subPaths data s
  = let req := api_request ps method endpoint subPaths data in
    match round_trip env (length (requests (trace s))) req with
    | inl e => (Done (apiObject, Some e), emit (EvDo req) s)
    | inr res =>
        (Done (api_result apiObject res),
         emit EvBodyClose (emit EvBodyRead (emit (EvDo req) s)))
    end.
Proof.
  intros He. unfold callApi, http_NewRequest. rewrite He.
  run_M. unfold api_request.
  destruct (round_trip _ _ _) as [e|res]; [reflexivity|].
  unfold api_result.
  destruct (negb _).
  - destruct (json_Unmarshal _ _) as [a [e|]]; reflexivity.
  - destruct (json_Unmarshal _ _) as [a e]; reflexivity.
Qed.

Lemma requests_emit (e : event) (s : State) :
  requests (trace (emit e s)) = requests (trace s) ++ requests [e].
Proof.
  unfold requests. change (trace (emit e s)) with (trace s ++ [e]).
  apply omap_app.
Qed.

Lemma fmt_s_ApiErrors_names (apiErrors : ApiErrors) (e : ApiError) :
  e ∈ Errors apiErrors ->
  occurs_in (fmt_s_ApiError e) (fmt_s_ApiErrors apiErrors).
Proof.
  intros Hin. unfold fmt_s_ApiErrors.
  apply occurs_in_app_l, occurs_in_app_r, occurs_in_concat.
  apply list_elem_of_fmap. by exists e.
Qed.

Lemma fmt_s_ApiError_fields (e : ApiError) :
  occurs_in (Code e) (fmt_s_ApiError e) /\ occurs_in (Detail e) (fmt_s_ApiError e).
Proof.
  unfold fmt_s_ApiError. split.
  - apply occurs_in_app_l, occurs_in_app_r, occurs_in_refl.
  - do 3 apply occurs_in_app_l. apply occurs_in_app_r, occurs_in_refl.
Qed.

(** C3: a response with status 200 is decoded into the caller's object and
    the decoder's error is the call's error; any other status is decoded as
    the API error payload and the call fails, with the decoder's error when
    the payload does not parse and otherwise with one error whose message
    holds the code and the detail of every reported pair. *)
Theorem callApi_response {T : Type} `{!Unmarshal T} (apiObject : T) ps method
    endpoint subPaths data s res :
  NewRequest_err env method (buildApiUrl ps endpoint subPaths) = None ->
  round_trip env (length (requests (trace s)))
             (api_request ps method endpoint subPaths data) = inr res ->
  exists r s',
    callApi env apiObject ps method endpoint subPaths data s = (Done r, s')
    /\ (StatusCode res = http_StatusOK ->
        r = json_Unmarshal (Body res) apiObject)
    /\ (StatusCode res <> http_StatusOK ->
        match json_Unmarshal (Body res) zero_ApiErrors with
        | (_, Some e) => r = (apiObject, Some e)
        | (apiErrors, None) =>
            exists msg,
              r = (apiObject, Some (ErrorString msg))
              /\ msg = "api call failed with errors: " +:+ fmt_s_ApiErrors apiErrors
              /\ forall e, e ∈ Errors apiErrors ->
                   occurs_in (Code e) msg /\ occurs_in (Detail e) msg
                   /\ occurs_in (fmt_s_ApiError e) msg
        end).
Proof.
  intros Hreq Hres. rewrite (callApi_accepted _ _ _ _ _ _ _ Hreq).
  cbv zeta. rewrite Hres. eexists _, _. split; [reflexivity|].
  unfold api_result. split.
  - intros ->. reflexivity.
  - intros Hne%Z.eqb_neq. rewrite Hne. cbn [negb].
    destruct (json_Unmarshal (Body res) zero_ApiErrors) as [apiErrors [e|]];
      [reflexivity|].
    eexists. split; [reflexivity|]. split; [reflexivity|].
    intros e He.
    assert (occurs_in (fmt_s_ApiError e)
              ("api call failed with errors: " +:+ fmt_s_ApiErrors apiErrors))
      as Hpair by by apply occurs_in_app_l, fmt_s_ApiErrors_names.
    destruct (fmt_s_ApiError_fields e) as [Hc Hd].
    eauto using occurs_in_trans.
Qed.

(** C9, as the code has it: when [http.NewRequest] rejects the method or URL
    its error is dropped, the request is nil and adding the first header
    panics before anything reaches the HTTP client.  Otherwise [callApi]
    sends one request and returns; it returns an error exactly when the
    round trip fails, the status is not 200 or the body does not decode, and
    the body it decodes is the bytes read, whether or not the read ended in
    an error. *)
Theorem callApi_error_iff {T : Type} `{!Unmarshal T} (apiObject : T) ps method
    endpoint subPaths data s :
  let req := api_request ps method endpoint subPaths data in
  match NewRequest_err env method (req_URL req) with
  | Some _ =>
      callApi env apiObject ps method endpoint subPaths data s
      = (Panic nil_dereference, s)
  | None =>
      exists obj err s',
        callApi env apiObject ps method endpoint subPaths data s
        = (Done (obj, err), s')
        /\ requests (trace s') = requests (trace s) ++ [req]
        /\ match round_trip env (length (requests (trace s))) req with
           | inl e => err = Some e
           | inr res =>
               (obj, err)
               = api_result apiObject
                   {| StatusCode := StatusCode res; Body := Body res;
                      BodyErr := None |}
               /\ (is_Some err <->
                   StatusCode res <> http_StatusOK
                   \/ is_Some (json_Unmarshal (Body res) apiObject).2)
           end
  end.
Proof.
  intros req. simpl req_URL.
  destruct (NewRequest_err _ _ _) as [e|] eqn:Hreq.
  - apply callApi_rejected. by rewrite Hreq.
  - rewrite (callApi_accepted _ _ _ _ _ _ _ Hreq). cbv zeta. fold req.
    destruct (round_trip _ _ _) as [e|res].
    + eexists _, _, _. split; [reflexivity|]. split; [|reflexivity].
      by rewrite requests_emit.
    + destruct (api_result apiObject res) as [obj err] eqn:Hr.
      exists obj, err. eexists. split; [reflexivity|]. split.
      { by rewrite !requests_emit, !app_nil_r. }
      split; [by rewrite <- Hr|].
      unfold api_result in Hr.
      destruct (StatusCode res =? http_StatusOK) eqn:Hst; cbn [negb] in Hr.
      * apply Z.eqb_eq in Hst. rewrite Hr. simpl. split; [auto|].
        by intros [?|?].
      * apply Z.eqb_neq in Hst. split; [auto|]. intros _.
        destruct (json_Unmarshal _ _) as [a [e|]]; by simplify_eq.
Qed.

(** C10: [BackupServer] and [GetServerBackups] send their one request to the
    same URL, [<base>/api/client/servers/<uuid>/backups]. *)
Theorem BackupServer_GetServerBackups_same_url
    `{!Unmarshal Backup, !Unmarshal Backups} ps server s :
  let url := Url ps +:+ "/api/client/servers/"
             +:+ server_UUID (server_Attributes server) +:+ "/backups" in
  NewRequest_err env http_MethodPost url = None ->
  NewRequest_err env http_MethodGet url = None ->
  exists post get,
    requests (trace (BackupServer env ps server s).2)
    = requests (trace s) ++ [post]
    /\ requests (trace (GetServerBackups env ps server s).2)
       = requests (trace s) ++ [get]
    /\ req_Method post = http_MethodPost /\ req_Method get = http_MethodGet
    /\ req_URL post = url /\ req_URL get = url.
Proof.
  intros url Hpost Hget.
  assert (buildApiUrl ps
            (sprintf_s_s_s ApiEndpointServer
               (server_UUID (server_Attributes server)) ApiEndpointBackups) []
          = url) as Hu1.
  { unfold buildApiUrl, sprintf_s_s_s, url; simpl. reflexivity. }
  assert (buildApiUrl ps ApiEndpointServer
            [server_UUID (server_Attributes server); ApiEndpointBackups]
          = url) as Hu2.
  { unfold buildApiUrl, sprintf_s_s_s, sprintf_s_s, url; simpl.
    rewrite !append_assoc. reflexivity. }
  exists (api_request ps http_MethodPost
            (sprintf_s_s_s ApiEndpointServer
               (server_UUID (server_Attributes server)) ApiEndpointBackups) [] ∅),
         (api_request ps http_MethodGet ApiEndpointServer
            [server_UUID (server_Attributes server); ApiEndpointBackups] ∅).
  split; [|split; [|by cbn [api_request req_Method req_URL]]].
  - unfold BackupServer. run_M.
    rewrite callApi_accepted by by rewrite Hu1. cbv zeta.
    destruct (round_trip _ _ _) as [e|res]; run_M.
    + by rewrite requests_emit.
    + destruct (api_result _ _) as [b [e|]]; run_M;
        by rewrite !requests_emit, !app_nil_r.
  - unfold GetServerBackups. run_M.
    rewrite callApi_accepted by by rewrite Hu2. cbv zeta.
    destruct (round_trip _ _ _) as [e|res]; run_M.
    + by rewrite requests_emit.
    + destruct (api_result _ _) as [b [e|]]; [|destruct (Backups_Backups b)];
        run_M; by rewrite !requests_emit, !app_nil_r.
Qed.

End Transport.

(** ** Resource accessors *)

Section Accessors.

Context (env : Env).
Context `{!Unmarshal ApiErrors, !Unmarshal Servers, !Unmarshal Backups}.

(** C4, as the code has it: after a 200 response that decodes without
    error, [GetServers] and [GetServerBackups] fail with their "none
    returned" error when the decoded collection is nil, and return the
    collection, with no error, when it is not nil. *)
Theorem nil_collection_is_an_error ps :
  (forall s res servers,
     NewRequest_err env http_MethodGet (buildApiUrl ps ApiEndpointServers []) = None ->
     round_trip env (length (requests (trace s)))
       (api_request ps http_MethodGet ApiEndpointServers [] ∅) = inr res ->
     StatusCode res = http_StatusOK ->
     json_Unmarshal (Body res) zero_Servers = (servers, None) ->
     (Servers_Servers servers = None ->
      (GetServers env ps s).1
      = Done (None, Some (ErrorString "no servers returned")))
     /\ (forall l, Servers_Servers servers = Some l ->
         (GetServers env ps s).1 = Done (Some l, None)))
  /\ (forall server s res backups,
        let subPaths :=
          [server_UUID (server_Attributes server); ApiEndpointBackups] in
        NewRequest_err env http_MethodGet
          (buildApiUrl ps ApiEndpointServer subPaths) = None ->
        round_trip env (length (requests (trace s)))
          (api_request ps http_MethodGet ApiEndpointServer subPaths ∅) = inr res ->
        StatusCode res = http_StatusOK ->
        json_Unmarshal (Body res) zero_Backups = (backups, None) ->
        (Backups_Backups backups = None ->
         (GetServerBackups env ps server s).1
         = Done (None, Some (ErrorString "no backups returned")))
        /\ (forall l, Backups_Backups backups = Some l ->
            (GetServerBackups env ps server s).1 = Done (Some l, None))).
Proof.
  split.
  - intros s res servers Hreq Hres Hst Hdec.
    unfold GetServers. run_M.
    rewrite (callApi_accepted _ _ _ _ _ _ _ _ Hreq). cbv zeta.
    rewrite Hres. unfold api_result. rewrite Hst, Hdec. cbn.
    split; [intros ->|intros l ->]; reflexivity.
  - intros server s res backups subPaths Hreq Hres Hst Hdec.
    unfold GetServerBackups. run_M. fold subPaths.
    rewrite (callApi_accepted _ _ _ _ _ _ _ _ Hreq). cbv zeta.
    rewrite Hres. unfold api_result. rewrite Hst, Hdec. cbn.
    split; [intros ->|intros l ->]; reflexivity.
Qed.

End Accessors.

(** ** Backup-completion poller *)

Section Poller.

Context (env : Env).
Context `{!Unmarshal ApiErrors, !Unmarshal Backup}.

Lemma last_cons_default {A : Type} (d x : A) (l : list A) :
  default d (last (x :: l)) = default x (last l).
Proof.
  destruct l as [|y l]; [reflexivity|]. rewrite last_cons_cons.
  destruct (last_is_Some (y :: l)) as [_ [z ->]]; done.
Qed.

(** A fetch that returns has sent exactly one request, and has not slept. *)
Lemma GetServerBackup_one_request ps server backupId s r s' :
  GetServerBackup env ps server backupId s = (Done r, s') ->
  exists req tr,
    trace s' = trace s ++ tr
    /\ requests tr = [req]
    /\ req_Method req = http_MethodGet
    /\ Forall (fun e => is_sleep e = false) tr.
Proof.
  unfold GetServerBackup. run_M.
  destruct (NewRequest_err env http_MethodGet
              (buildApiUrl ps ApiEndpointServer
                 [server_UUID (server_Attributes server); ApiEndpointBackups;
                  backupId])) as [e|] eqn:Hreq.
  - rewrite callApi_rejected by by rewrite Hreq. discriminate.
  - rewrite (callApi_accepted _ _ _ _ _ _ _ _ Hreq). cbv zeta.
    destruct (round_trip _ _ _) as [e|res]; run_M.
    + injection 1 as _ <-. eexists _, [_]. cbn [trace emit].
      split; [reflexivity|]. split; [reflexivity|]. split; [reflexivity|].
      by repeat constructor.
    + destruct (api_result _ _) as [b [e|]]; run_M;
        injection 1 as _ <-; eexists _, [_; _; _]; cbn [trace emit];
        rewrite <- !app_assoc;
        (split; [reflexivity|]); (split; [reflexivity|]);
        (split; [reflexivity|]); by repeat constructor.
Qed.

Lemma requests_app (tr1 tr2 : list event) :
  requests (tr1 ++ tr2) = requests tr1 ++ requests tr2.
Proof. apply omap_app. Qed.

Lemma polls_requests ps server b s bs s' :
  polls env ps server b s bs s' ->
  length (requests (trace s')) = (length (requests (trace s)) + length bs)%nat.
Proof.
  induction 1 as [|b s b1 s1 bs s2 Hget _ IH]; [simpl; lia|].
  apply GetServerBackup_one_request in Hget as (req & tr & Htr & Hreq & _).
  rewrite IH, Htr, requests_app, Hreq, length_app. simpl. lia.
Qed.

(** While the fetched records are pending the loop only fetches. *)
Lemma wait_loop_pending ps server b s pend s1 fuel :
  polls env ps server b s pend s1 ->
  Forall is_pending pend ->
  wait_loop env (length pend + fuel) ps server b s
  = wait_loop env fuel ps server (default b (last pend)) s1.
Proof.
  induction 1 as [|b s b1 s1 bs s2 Hget Hpolls IH]; [reflexivity|].
  intros [Hb1 Hbs]%Forall_cons.
  cbn [length Nat.add wait_loop]. run_M. rewrite Hget.
  unfold is_pending in Hb1. rewrite Hb1. cbn [negb].
  rewrite IH by done. by rewrite last_cons_default.
Qed.

Lemma polls_snoc ps server b s bs bN sN :
  polls env ps server b s (bs ++ [bN]) sN ->
  exists sK,
    polls env ps server b s bs sK
    /\ GetServerBackup env ps server
         (backup_UUID (backup_Attributes (default b (last bs)))) sK
       = (Done (bN, None), sN).
Proof.
  revert b s. induction bs as [|b1 bs IH]; intros b s Hpolls.
  - inversion Hpolls as [|? ? ? s1 ? ? Hget Hrest]; subst.
    inversion Hrest; subst. exists s. split; [constructor|exact Hget].
  - inversion Hpolls as [|? ? ? s1 ? ? Hget Hrest]; subst.
    apply IH in Hrest as (sK & Hpre & Hlast).
    exists sK. split; [by econstructor|].
    by rewrite last_cons_default.
Qed.

(** The three ways a fetch fails: the round trip fails, the panel answers
    with another status than 200, or the body of a 200 does not decode. *)
Lemma GetServerBackup_error_kinds ps server backupId s :
  let subPaths :=
    [server_UUID (server_Attributes server); ApiEndpointBackups; backupId] in
  let req := api_request ps http_MethodGet ApiEndpointServer subPaths ∅ in
  NewRequest_err env http_MethodGet (buildApiUrl ps ApiEndpointServer subPaths)
  = None ->
  match round_trip env (length (requests (trace s))) req with
  | inl e =>
      (GetServerBackup env ps server backupId s).1 = Done (zero_Backup, Some e)
  | inr res =>
      (StatusCode res <> http_StatusOK ->
       exists e, (GetServerBackup env ps server backupId s).1
                 = Done (zero_Backup, Some e))
      /\ (StatusCode res = http_StatusOK ->
          (GetServerBackup env ps server backupId s).1
          = Done (json_Unmarshal (Body res) zero_Backup))
  end.
Proof.
  intros subPaths req Hreq. unfold GetServerBackup. run_M.
  rewrite (callApi_accepted _ _ _ _ _ _ _ _ Hreq). cbv zeta. fold subPaths req.
  destruct (round_trip _ _ _) as [e|res]; [reflexivity|].
  unfold api_result. split.
  - intros Hst%Z.eqb_neq. rewrite Hst. cbn [negb].
    destruct (json_Unmarshal _ zero_ApiErrors) as [a [e|]]; by eexists.
  - intros ->. cbn. by destruct (json_Unmarshal _ _) as [b [e|]].
Qed.

(** Fetches never sleep. *)
Lemma polls_no_sleep ps server b s bs s' :
  polls env ps server b s bs s' ->
  exists tr, trace s' = trace s ++ tr /\ Forall (fun e => is_sleep e = false) tr.
Proof.
  induction 1 as [b s|b s b1 s1 bs s2 Hget _ (tr2 & Htr2 & Hno2)].
  - exists []. by rewrite app_nil_r.
  - apply GetServerBackup_one_request in Hget as (_ & tr1 & Htr1 & _ & _ & Hno1).
    exists (tr1 ++ tr2). rewrite Htr2, Htr1, app_assoc.
    split; [reflexivity|]. by apply Forall_app.
Qed.

(** A failed backup request ends the wait before any fetch. *)
Lemma BackupServerWithWait_request_fails ps server s b e s0 fuel :
  BackupServer env ps server s = (Done (b, Some e), s0) ->
  BackupServerWithWait env fuel ps server s = (Done (None, Some e), s0).
Proof. intros Hb. unfold BackupServerWithWait. run_M. by rewrite Hb. Qed.

(** C6: when the first [N - 1] fetches report a pending record and the
    [N]-th a completed one, [BackupServerWithWait] returns the [N]-th
    record, having sent exactly [N] requests after the backup request; the
    one sleep of the wait follows the last fetch. *)
Theorem BackupServerWithWait_fetches_until_completed ps server s b0 s0 pend
    bN sN fuel :
  BackupServer env ps server s = (Done (b0, None), s0) ->
  polls env ps server b0 s0 (pend ++ [bN]) sN ->
  Forall is_pending pend ->
  ~ is_pending bN ->
  (length pend < fuel)%nat ->
  exists s',
    BackupServerWithWait env fuel ps server s = (Done (Some bN, None), s')
    /\ length (requests (trace s'))
       = (length (requests (trace s0)) + S (length pend))%nat
    /\ trace s'
       = trace sN
         ++ [EvSleep (Duration_mul (wrap64 (WaitForBackupSeconds sN)) time_Second);
             EvLog "debug" "Waiting for backup..."].
Proof.
  intros Hb Hpolls Hpend HbN Hfuel.
  pose proof (polls_requests _ _ _ _ _ _ Hpolls) as Hcount.
  apply polls_snoc in Hpolls as (sK & Hpre & Hlast).
  eexists. split; [|split].
  - unfold BackupServerWithWait. run_M. rewrite Hb.
    replace fuel with (length pend + S (fuel - S (length pend)))%nat by lia.
    rewrite (wait_loop_pending _ _ _ _ _ _ _ Hpre Hpend).
    cbn [wait_loop]. run_M. rewrite Hlast.
    unfold is_pending in HbN. apply not_true_is_false in HbN. rewrite HbN.
    reflexivity.
  - rewrite !requests_emit, !app_nil_r, Hcount, length_app. simpl. lia.
  - cbn [trace emit]. by rewrite <- app_assoc.
Qed.

(** C7: when a fetch returns an error, after any number of pending reads,
    the wait returns that error and no record, in the very state the failed
    fetch left: nothing is sent, slept or logged after it. *)
Theorem BackupServerWithWait_aborts_on_fetch_error ps server s b0 s0 pend
    sK b e s' fuel :
  BackupServer env ps server s = (Done (b0, None), s0) ->
  polls env ps server b0 s0 pend sK ->
  Forall is_pending pend ->
  GetServerBackup env ps server
    (backup_UUID (backup_Attributes (default b0 (last pend)))) sK
  = (Done (b, Some e), s') ->
  (length pend < fuel)%nat ->
  BackupServerWithWait env fuel ps server s = (Done (None, Some e), s')
  /\ length (requests (trace s'))
     = (length (requests (trace s0)) + S (length pend))%nat.
Proof.
  intros Hb Hpolls Hpend Hfail Hfuel. split.
  - unfold BackupServerWithWait. run_M. rewrite Hb.
    replace fuel with (length pend + S (fuel - S (length pend)))%nat by lia.
    rewrite (wait_loop_pending _ _ _ _ _ _ _ Hpolls Hpend).
    cbn [wait_loop]. run_M. by rewrite Hfail.
  - apply polls_requests in Hpolls.
    apply GetServerBackup_one_request in Hfail as (req & tr & -> & Hreq & _).
    rewrite requests_app, Hreq, length_app, Hpolls. simpl. lia.
Qed.

End Poller.

(** ** Download flow *)

Section Download.

Context (env : Env).
Context `{!Unmarshal ApiErrors, !Unmarshal BackupUrl}.

(** The transport call leaves the file system alone. *)
Lemma callApi_frame {T : Type} `{!Unmarshal T} (apiObject : T) ps method
    endpoint subPaths data s r s' :
  callApi env apiObject ps method endpoint subPaths data s = (r, s') ->
  files s' = files s /\ fd_table s' = fd_table s
  /\ exists tr, trace s' = trace s ++ tr
                /\ Forall (fun e => is_fs_event e = false) tr.
Proof.
  destruct (NewRequest_err env method (buildApiUrl ps endpoint subPaths))
    as [e|] eqn:Hreq.
  - rewrite callApi_rejected by by rewrite Hreq.
    injection 1 as <- <-. do 2 (split; [reflexivity|]).
    exists []. by rewrite app_nil_r.
  - rewrite (callApi_accepted _ _ _ _ _ _ _ _ Hreq). cbv zeta.
    destruct (round_trip _ _ _) as [e|res]; injection 1 as <- <-;
      (do 2 (split; [reflexivity|])); cbn [trace emit];
      rewrite <- ?app_assoc; eexists; (split; [reflexivity|]);
      by repeat constructor.
Qed.

Lemma os_Create_run path s :
  os_Create env path s
  = match Create_err env path with
    | Some e => (Done (None, Some e), s)
    | None =>
        (Done (Some (length (fd_table s)), None),
         emit (EvCreate path)
           (set_fd_table (fd_table s ++ [(path, true)])
              (set_files (<[path := EmptyString]> (files s)) s)))
    end.
Proof. unfold os_Create. by destruct (Create_err env path). Qed.

(** Copying into an open file: some part of the body reaches the file, and
    all of it when the copy reports no error. *)
Lemma io_Copy_open f path res s :
  fd_table s !! f = Some (path, true) ->
  exists n err part,
    io_Copy env f res s
    = (Done (n, err),
       emit (EvWrite path part)
         (set_files (<[path := default EmptyString (files s !! path) +:+ part]>
                       (files s))
            (emit EvBodyRead s)))
    /\ (err = None -> part = Body res).
Proof.
  intros Hopen. unfold io_Copy, File_Write. run_M.
  cbn [fd_table emit files]. rewrite Hopen.
  destruct (Write_fault env path) as [[k e]|].
  - destruct (decide _).
    + destruct (BodyErr res); eexists _, _, _; (split; [reflexivity|]); done.
    + eexists _, _, _. split; [reflexivity|]. done.
  - destruct (BodyErr res); eexists _, _, _; (split; [reflexivity|]); done.
Qed.

Lemma File_Close_open f path s :
  fd_table s !! f = Some (path, true) ->
  File_Close (Some f) s
  = (Done None,
     emit (EvFileClose f) (set_fd_table (<[f := (path, false)]> (fd_table s)) s)).
Proof. intros Hopen. unfold File_Close. run_M. by rewrite Hopen. Qed.

Lemma File_Write_closed f path data s :
  fd_table s !! f = Some (path, false) ->
  File_Write env f data s = (Done (0%nat, Some ErrClosed), s).
Proof. intros Hclosed. unfold File_Write. run_M. by rewrite Hclosed. Qed.

(** The signed URL answers with a status other than 200. *)
Lemma DownloadServerBackup_refused ps server backupId destination s backupUrl
    s1 res :
  let url := URL (backupurl_Attributes backupUrl) in
  callApi env zero_BackupUrl ps http_MethodGet ApiEndpointServer
    [server_UUID (server_Attributes server); ApiEndpointBackups; backupId;
     "download"] ∅ s = (Done (backupUrl, None), s1) ->
  NewRequest_err env http_MethodGet url = None ->
  round_trip env (length (requests (trace s1))) (download_request url) = inr res ->
  StatusCode res <> http_StatusOK ->
  DownloadServerBackup env ps server backupId destination s
  = (Done (None, Some (ErrorString ("download failed with status code "
                                    +:+ pretty (StatusCode res)))),
     emit EvBodyClose
       (emit (EvLog "trace" ("DownloadServerBackup -> Status Code: '"
                             +:+ pretty (StatusCode res) +:+ "'"))
          (emit (EvDo (download_request url))
             (emit (EvLog "trace"
                      ("DownloadServerBackup -> Attempting to download: '"
                       +:+ url +:+ "'")) s1)))).
Proof.
  intros url Hcall Hreq Hres Hst%Z.eqb_neq.
  unfold DownloadServerBackup. run_M. rewrite Hcall.
  unfold http_NewRequest. fold url. rewrite Hreq.
  rewrite requests_emit, app_nil_r.
  change {| req_Method := _; req_URL := _; req_Header := _; req_Body := _ |}
    with (download_request url).
  by rewrite Hres, Hst.
Qed.

(** Every way a download can end. *)
Lemma DownloadServerBackup_cases ps server backupId destination s r s' :
  DownloadServerBackup env ps server backupId destination s = (r, s') ->
  (files s' = files s /\ fd_table s' = fd_table s
   /\ (exists tr, trace s' = trace s ++ tr
                  /\ Forall (fun e => is_fs_event e = false) tr)
   /\ forall f, r <> Done (Some f, None))
  \/ exists backupUrl s1 res err part,
       let url := URL (backupurl_Attributes backupUrl) in
       let f := length (fd_table s) in
       callApi env zero_BackupUrl ps http_MethodGet ApiEndpointServer
         [server_UUID (server_Attributes server); ApiEndpointBackups; backupId;
          "download"] ∅ s = (Done (backupUrl, None), s1)
       /\ round_trip env (length (requests (trace s1))) (download_request url)
          = inr res
       /\ StatusCode res = http_StatusOK
       /\ r = Done (match err with
                    | Some e => (None, Some e)
                    | None => (Some f, None)
                    end)
       /\ (err = None -> part = Body res)
       /\ files s' = <[destination := part]> (files s)
       /\ fd_table s' = fd_table s ++ [(destination, false)]
       /\ trace s'
          = trace s1
            ++ [EvLog "trace" ("DownloadServerBackup -> Attempting to download: '"
                               +:+ url +:+ "'");
                EvDo (download_request url);
                EvLog "trace" ("DownloadServerBackup -> Status Code: '"
                               +:+ pretty (StatusCode res) +:+ "'");
                EvCreate destination;
                EvLog "trace" ("DownloadServerBackup -> Creating file: '"
                               +:+ destination +:+ "'");
                EvLog "trace"
                  ("DownloadServerBackup -> Copying repsonse body to file: '"
                   +:+ destination +:+ "'");
                EvBodyRead; EvWrite destination part; EvFileClose f; EvBodyClose].
Proof.
  unfold DownloadServerBackup. run_M.
  destruct (callApi _ _ _ _ _ _ _ s) as [[[bu [e|]]|msg|] s1] eqn:Hcall;
    pose proof (callApi_frame _ _ _ _ _ _ _ _ _ Hcall)
      as (Hfiles & Hfds & tr1 & Htr1 & Hno1).
  1,3,4: injection 1 as <- <-; left; eauto 10.
  unfold http_NewRequest.
  destruct (NewRequest_err _ _ _) as [e|] eqn:Hreq.
  { injection 1 as <- <-. left. cbn [files fd_table trace emit].
    do 2 (split; [done|]). split; [|done].
    eexists. rewrite Htr1, <- app_assoc. split; [reflexivity|].
    apply Forall_app. split; [done|]. by repeat constructor. }
  rewrite requests_emit, app_nil_r.
  change {| req_Method := _; req_URL := _; req_Header := _; req_Body := _ |}
    with (download_request (URL (backupurl_Attributes bu))).
  destruct (round_trip _ _ _) as [e|res] eqn:Hres.
  { injection 1 as <- <-. left. cbn [files fd_table trace emit].
    do 2 (split; [done|]). split; [|done].
    eexists. rewrite Htr1, <- !app_assoc. split; [reflexivity|].
    apply Forall_app. split; [done|]. by repeat constructor. }
  destruct (StatusCode res =? http_StatusOK) eqn:Hst.
  2: { injection 1 as <- <-. left. cbn [files fd_table trace emit].
    do 2 (split; [done|]). split; [|done].
    eexists. rewrite Htr1, <- !app_assoc. split; [reflexivity|].
    apply Forall_app. split; [done|]. by repeat constructor. }
  rewrite os_Create_run.
  destruct (Create_err env destination) as [e|] eqn:Hcreate; run_M.
  { injection 1 as <- <-. left. cbn [files fd_table trace emit].
    do 2 (split; [done|]). split; [|done].
    eexists. rewrite Htr1, <- !app_assoc. split; [reflexivity|].
    apply Forall_app. split; [done|]. by repeat constructor. }
  cbn [fd_table files emit].
  match goal with
  | |- context [io_Copy env _ res ?st] => set (s4 := st)
  end.
  assert (fd_table s4 !! length (fd_table s1) = Some (destination, true))
    as Hopen by (cbn; apply list_lookup_middle; done).
  destruct (io_Copy_open _ _ res _ Hopen) as (n & err & part & -> & Hpart).
  intros Hrun. right. exists bu, s1, res, err, part. cbv zeta.
  split; [done|]. split; [done|]. split; [by apply Z.eqb_eq|].
  rewrite <- Hfds.
  assert (r = Done (match err with
                    | Some e => (None, Some e)
                    | None => (Some (length (fd_table s1)), None)
                    end)
          /\ s' = emit EvBodyClose
                    (emit (EvFileClose (length (fd_table s1)))
                       (set_fd_table
                          (<[length (fd_table s1) := (destination, false)]>
                             (fd_table s4))
                          (emit (EvWrite destination part)
                             (set_files
                                (<[destination :=
                                     default EmptyString (files s4 !! destination)
                                     +:+ part]> (files s4))
                                (emit EvBodyRead s4)))))) as [-> ->].
  { destruct err as [e|]; run_M in Hrun;
      (erewrite File_Close_open in Hrun by exact Hopen);
      by injection Hrun as <- <-. }
  split; [done|]. split; [done|].
  cbn [files fd_table trace emit set_files set_fd_table s4].
  split; [|split].
  - rewrite lookup_insert_eq. cbn [default]. rewrite insert_insert_eq.
    by rewrite Hfiles.
  - rewrite insert_app_r_alt by done. by rewrite Nat.sub_diag.
  - by rewrite <- !app_assoc.
Qed.

(** C5: the first file event of a download, if there is one, is the
    creation of the destination, and it follows a 200 answer from the signed
    URL.  When that answer has another status the call returns the error
    that reports the status code; after the request it only logs the status
    and closes the body, so the body is never read, and files and handles
    are as they were. *)
Theorem DownloadServerBackup_status_gate ps server backupId destination s r s' :
  DownloadServerBackup env ps server backupId destination s = (r, s') ->
  ((files s' = files s /\ fd_table s' = fd_table s
    /\ exists tr, trace s' = trace s ++ tr
                  /\ Forall (fun e => is_fs_event e = false) tr)
   \/ exists before url res after,
        trace s'
        = trace s ++ before
          ++ [EvDo (download_request url);
              EvLog "trace" ("DownloadServerBackup -> Status Code: '"
                             +:+ pretty (StatusCode res) +:+ "'");
              EvCreate destination] ++ after
        /\ Forall (fun e => is_fs_event e = false) before
        /\ round_trip env (length (requests (trace s ++ before)))
                      (download_request url) = inr res
        /\ StatusCode res = http_StatusOK)
  /\ (forall backupUrl s1 res,
        let url := URL (backupurl_Attributes backupUrl) in
        callApi env zero_BackupUrl ps http_MethodGet ApiEndpointServer
          [server_UUID (server_Attributes server); ApiEndpointBackups; backupId;
           "download"] ∅ s = (Done (backupUrl, None), s1) ->
        NewRequest_err env http_MethodGet url = None ->
        round_trip env (length (requests (trace s1))) (download_request url)
        = inr res ->
        StatusCode res <> http_StatusOK ->
        r = Done (None, Some (ErrorString ("download failed with status code "
                                           +:+ pretty (StatusCode res))))
        /\ files s' = files s /\ fd_table s' = fd_table s
        /\ trace s'
           = trace s1
             ++ [EvLog "trace" ("DownloadServerBackup -> Attempting to download: '"
                                +:+ url +:+ "'");
                 EvDo (download_request url);
                 EvLog "trace" ("DownloadServerBackup -> Status Code: '"
                                +:+ pretty (StatusCode res) +:+ "'");
                 EvBodyClose]).
Proof.
  intros Hrun. split.
  - destruct (DownloadServerBackup_cases _ _ _ _ _ _ _ Hrun)
      as [(Hfiles & Hfds & Htr & _)
         |(bu & s1 & res & err & part & Hcall & Hres & Hst & _ & _ & _ & _ & Htr)];
      [by left|right].
    destruct (callApi_frame _ _ _ _ _ _ _ _ _ Hcall)
      as (_ & _ & tr1 & Htr1 & Hno1).
    eexists (tr1 ++ [_]), _, res, _. split; [|split; [|split]].
    + rewrite Htr, Htr1, <- !app_assoc. reflexivity.
    + apply Forall_app. split; [done|]. by repeat constructor.
    + rewrite app_assoc, <- Htr1, requests_app, app_nil_r. exact Hres.
    + exact Hst.
  - intros bu s1 res url Hcall Hreq Hres Hst.
    rewrite (DownloadServerBackup_refused _ _ _ _ _ _ _ _ Hcall Hreq Hres Hst)
      in Hrun.
    injection Hrun as <- <-.
    destruct (callApi_frame _ _ _ _ _ _ _ _ _ Hcall) as (Hfiles & Hfds & _).
    split; [done|]. split; [done|]. split; [done|].
    cbn [trace emit]. by rewrite <- !app_assoc.
Qed.

(** C8: the handle a successful download returns was opened by the call and
    is closed when the call returns: the close is the last file event before
    the return, and a write through the handle fails with [os.ErrClosed]. *)
Theorem DownloadServerBackup_returns_closed_file ps server backupId destination
    s f s' :
  DownloadServerBackup env ps server backupId destination s
  = (Done (Some f, None), s') ->
  fd_table s !! f = None
  /\ fd_table s' !! f = Some (destination, false)
  /\ (exists tr, trace s' = trace s ++ tr ++ [EvFileClose f; EvBodyClose])
  /\ forall data, File_Write env f data s' = (Done (0%nat, Some ErrClosed), s').
Proof.
  intros Hrun.
  destruct (DownloadServerBackup_cases _ _ _ _ _ _ _ Hrun)
    as [(_ & _ & _ & Hne)
       |(bu & s1 & res & err & part & Hcall & _ & _ & Hr & _ & _ & Hfds & Htr)];
    [by destruct (Hne f)|].
  destruct err as [e|]; [discriminate|]. injection Hr as ->.
  assert (fd_table s' !! length (fd_table s) = Some (destination, false))
    as Hclosed by (rewrite Hfds; by apply list_lookup_middle).
  split; [by apply lookup_ge_None_2|]. split; [done|]. split.
  - destruct (callApi_frame _ _ _ _ _ _ _ _ _ Hcall) as (_ & _ & tr1 & Htr1 & _).
    eexists (tr1 ++ [_; _; _; _; _; _; _; _]).
    rewrite Htr, Htr1, <- !app_assoc. reflexivity.
  - intros data. by eapply File_Write_closed.
Qed.

End Download.

(** * Further properties *)

(** ** The URL builder appends verbatim *)

Lemma concat_segments_app (l k : list string) :
  String.concat EmptyString (map (String.append "/") (l ++ k))
  = String.concat EmptyString (map (String.append "/") l)
    +:+ String.concat EmptyString (map (String.append "/") k).
Proof.
  induction l as [|x l IH]; [reflexivity|].
  assert (forall y ys, String.concat EmptyString (y :: ys)
                       = y +:+ String.concat EmptyString ys) as Hcons.
  { intros y [|z ys]; simpl; [by rewrite append_nil_r|reflexivity]. }
  simpl app. simpl map. by rewrite !Hcons, IH, !append_assoc.
Qed.

(** Segments are not escaped.  Segments given later extend the URL of the
    earlier ones; a segment [a/b] gives the URL of the two segments [a] and
    [b]; a segment moved behind the endpoint gives the same URL; an empty
    last segment leaves a bare [/] at the end. *)
Theorem buildApiUrl_verbatim (ps : PterodactylServer) (endpoint a b : string)
    (segs more : list string) :
  buildApiUrl ps endpoint (segs ++ more)
  = buildApiUrl ps endpoint segs
    +:+ String.concat EmptyString (map (String.append "/") more)
  /\ buildApiUrl ps endpoint (segs ++ [a +:+ "/" +:+ b] ++ more)
     = buildApiUrl ps endpoint (segs ++ [a; b] ++ more)
  /\ buildApiUrl ps (endpoint +:+ "/" +:+ a) segs
     = buildApiUrl ps endpoint (a :: segs)
  /\ buildApiUrl ps endpoint (segs ++ [EmptyString])
     = buildApiUrl ps endpoint segs +:+ "/".
Proof.
  unfold buildApiUrl. rewrite !fold_sprintf_s_s.
  split; [|split; [|split]].
  - by rewrite concat_segments_app, !append_assoc.
  - rewrite !concat_segments_app. do 2 f_equal; done.
  - change (a :: segs) with ([a] ++ segs). rewrite concat_segments_app.
    unfold sprintf_s_s_s. cbn. by rewrite !append_assoc, ?append_nil_r.
  - rewrite concat_segments_app. by rewrite !append_assoc.
Qed.

(** ** What the transport call does and sends *)

Section TransportMore.

Context (env : Env).
Context `{!Unmarshal ApiErrors}.


Lemma sent_by_app {A : Type} (m : M A) s l :
  requests (trace (m s).2) = requests (trace s) ++ l -> sent_by m s = l.
Proof. intros Heq. unfold sent_by. by rewrite Heq, drop_app_length. Qed.

(** The requests of a transport call: none when the request is rejected,
    otherwise the one it builds. *)
Lemma callApi_sent {T : Type} `{!Unmarshal T} (apiObject : T) ps method
    endpoint subPaths data s :
  sent_by (callApi env apiObject ps method endpoint subPaths data) s
  = match NewRequest_err env method (buildApiUrl ps endpoint subPaths) with
    | Some _ => []
    | None => [api_request ps method endpoint subPaths data]
    end.
Proof.
  apply sent_by_app.
  destruct (NewRequest_err _ _ _) as [e|] eqn:Hreq.
  - rewrite callApi_rejected by by rewrite Hreq. by rewrite app_nil_r.
  - rewrite (callApi_accepted _ _ _ _ _ _ _ _ Hreq). cbv zeta.
    destruct (round_trip _ _ _); cbn [snd];
      by rewrite !requests_emit, ?app_nil_r.
Qed.

(** Every run of [callApi] is one of three: it panics on a rejected request
    before any effect; the round trip fails and its error is returned as it
    is, with the caller's object as it was passed and nothing read or
    closed; or a response arrives, whose body is read once and then closed.
    No run sleeps, touches a file or changes the poll interval. *)
Theorem callApi_events {T : Type} `{!Unmarshal T} (apiObject : T) ps method
    endpoint subPaths data s :
  let req := api_request ps method endpoint subPaths data in
  let run := callApi env apiObject ps method endpoint subPaths data s in
  WaitForBackupSeconds run.2 = WaitForBackupSeconds s
  /\ files run.2 = files s /\ fd_table run.2 = fd_table s
  /\ ((is_Some (NewRequest_err env method (req_URL req))
       /\ run.1 = Panic nil_dereference /\ trace run.2 = trace s)
      \/ (exists e,
            round_trip env (length (requests (trace s))) req = inl e
            /\ run.1 = Done (apiObject, Some e)
            /\ trace run.2 = trace s ++ [EvDo req])
      \/ (exists res,
            round_trip env (length (requests (trace s))) req = inr res
            /\ run.1 = Done (api_result apiObject res)
            /\ trace run.2 = trace s ++ [EvDo req; EvBodyRead; EvBodyClose])).
Proof.
  intros req run. subst run. simpl req_URL.
  destruct (NewRequest_err _ _ _) as [e|] eqn:Hreq.
  - rewrite callApi_rejected by by rewrite Hreq.
    do 3 (split; [reflexivity|]). left. by eauto.
  - rewrite (callApi_accepted _ _ _ _ _ _ _ _ Hreq). cbv zeta. fold req.
    destruct (round_trip _ _ _) as [e|res];
      (do 3 (split; [reflexivity|])); right; [left|right]; eexists;
      (split; [reflexivity|]); (split; [reflexivity|]);
      cbn [snd trace emit]; by rewrite <- ?app_assoc.
Qed.


End TransportMore.

(** ** The accessors *)

Section AccessorsMore.

Context (env : Env).
Context `{!Unmarshal ApiErrors, !Unmarshal Servers, !Unmarshal Server,
          !Unmarshal Backups, !Unmarshal Backup}.






(** The list calls return a non-nil slice or an error, never both and never
    neither. *)
Theorem list_calls_slice_xor_error ps :
  (forall s l err s',
     GetServers env ps s = (Done (l, err), s') ->
     (l = None /\ is_Some err) \/ (is_Some l /\ err = None))
  /\ (forall server s l err s',
        GetServerBackups env ps server s = (Done (l, err), s') ->
        (l = None /\ is_Some err) \/ (is_Some l /\ err = None)).
Proof.
  split.
  - intros s l err s'. unfold GetServers. run_M.
    destruct (callApi _ _ _ _ _ _ _ s) as [[[servers [e|]]|msg|] s1];
      [| destruct (Servers_Servers servers) | |];
      intros; simplify_eq; eauto.
  - intros server s l err s'. unfold GetServerBackups. run_M.
    destruct (callApi _ _ _ _ _ _ _ s) as [[[backups [e|]]|msg|] s1];
      [| destruct (Backups_Backups backups) | |];
      intros; simplify_eq; eauto.
Qed.

End AccessorsMore.

(** ** The poller *)

Section PollerMore.

Context (env : Env).
Context `{!Unmarshal ApiErrors, !Unmarshal Backup}.

Lemma wait_loop_result fuel ps server b s rb re s' :
  wait_loop env fuel ps server b s = (Done (rb, re), s') ->
  (rb = None /\ is_Some re)
  \/ (exists b', rb = Some b' /\ re = None /\ ~ is_pending b').
Proof.
  revert b s. induction fuel as [|fuel IH]; intros b s; [discriminate|].
  cbn [wait_loop]. run_M.
  destruct (GetServerBackup _ _ _ _ s) as [[[b1 [e|]]|msg|] s1];
    try discriminate.
  - injection 1 as <- <- <-. left. eauto.
  - destruct (Time_IsZero (CompletedAt (backup_Attributes b1))) eqn:Hzero;
      cbn [negb].
    + apply IH.
    + injection 1 as <- <- <-. right. exists b1.
      unfold is_pending. rewrite Hzero. by eauto.
Qed.

(** Whenever the wait returns, it returns either an error and no record, or
    no error and a record whose completion timestamp is set: a pending
    record is never returned. *)
Theorem BackupServerWithWait_returns_completed ps server fuel s rb re s' :
  BackupServerWithWait env fuel ps server s = (Done (rb, re), s') ->
  (rb = None /\ is_Some re)
  \/ (exists b, rb = Some b /\ re = None
                /\ Time_IsZero (CompletedAt (backup_Attributes b)) = false).
Proof.
  unfold BackupServerWithWait. run_M.
  destruct (BackupServer _ _ _ s) as [[[b0 [e|]]|msg|] s0]; try discriminate.
  - injection 1 as <- <- <-. left. eauto.
  - intros [?|(b & -> & -> & Hb)]%wait_loop_result; [by left|right].
    exists b. unfold is_pending in Hb. by destruct (Time_IsZero _).
Qed.

(** However many reads report a pending backup, the loop is still running
    after them, has sent one request per read and has not slept in between:
    the wait has no retry limit and no pause while the backup is pending. *)
Theorem BackupServerWithWait_polls_without_pause ps server s b0 s0 pend sK :
  BackupServer env ps server s = (Done (b0, None), s0) ->
  polls env ps server b0 s0 pend sK ->
  Forall is_pending pend ->
  BackupServerWithWait env (length pend) ps server s = (OutOfFuel, sK)
  /\ length (requests (trace sK))
     = (length (requests (trace s0)) + length pend)%nat
  /\ exists tr, trace sK = trace s0 ++ tr
                /\ Forall (fun e => is_sleep e = false) tr.
Proof.
  intros Hb Hpolls Hpend. split; [|split].
  - unfold BackupServerWithWait. run_M. rewrite Hb.
    replace (length pend) with (length pend + 0)%nat by lia.
    by rewrite (wait_loop_pending _ _ _ _ _ _ _ _ Hpolls Hpend).
  - by eapply polls_requests.
  - by eapply polls_no_sleep.
Qed.

(** When the backup request itself fails, for a failed round trip or for a
    status other than 200, the wait returns an error and no record, and the
    POST is the only request: nothing is fetched. *)
Theorem BackupServerWithWait_request_refused ps server fuel s :
  let req :=
    api_request ps http_MethodPost
      (sprintf_s_s_s ApiEndpointServer (server_UUID (server_Attributes server))
         ApiEndpointBackups) [] ∅ in
  NewRequest_err env http_MethodPost (req_URL req) = None ->
  match round_trip env (length (requests (trace s))) req with
  | inl _ => True
  | inr res => StatusCode res <> http_StatusOK
  end ->
  (exists e, (BackupServerWithWait env fuel ps server s).1
             = Done (None, Some e))
  /\ sent_by (BackupServerWithWait env fuel ps server) s = [req].
Proof.
  intros req Hreq Hfail.
  assert (exists b e s0,
            BackupServer env ps server s = (Done (b, Some e), s0)
            /\ requests (trace s0) = requests (trace s) ++ [req])
    as (b & e & s0 & Hb & Hsent).
  { unfold BackupServer. run_M.
    rewrite (callApi_accepted _ _ _ _ _ _ _ _ Hreq). cbv zeta. fold req.
    destruct (round_trip _ _ _) as [e|res].
    - eexists _, _, _. split; [reflexivity|]. by rewrite requests_emit.
    - apply Z.eqb_neq in Hfail. unfold api_result. rewrite Hfail. cbn [negb].
      destruct (json_Unmarshal _ zero_ApiErrors) as [a [e|]];
        eexists _, _, _; (split; [reflexivity|]);
        by rewrite !requests_emit, !app_nil_r. }
  pose proof (BackupServerWithWait_request_fails _ _ _ _ _ _ _ fuel Hb) as Hrun.
  split.
  - exists e. by rewrite Hrun.
  - apply sent_by_app. by rewrite Hrun.
Qed.

Lemma wrap64_range z : - 2 ^ 63 <= wrap64 z < 2 ^ 63.
Proof. unfold wrap64. pose proof (Z.mod_pos_bound (z + 2 ^ 63) (2 ^ 64)). lia. Qed.

Lemma wrap64_small z : - 2 ^ 63 <= z < 2 ^ 63 -> wrap64 z = z.
Proof. intros Hz. unfold wrap64. rewrite Z.mod_small by lia. lia. Qed.

Lemma GetServerBackup_interval ps server backupId s r s' :
  GetServerBackup env ps server backupId s = (r, s') ->
  WaitForBackupSeconds s' = WaitForBackupSeconds s.
Proof.
  unfold GetServerBackup, callApi, http_NewRequest. run_M.
  destruct (NewRequest_err _ _ _); [by injection 1 as _ <-|].
  destruct (round_trip _ _ _) as [?|res]; [by injection 1 as _ <-|].
  destruct (negb _); destruct (json_Unmarshal _ _) as [? [?|]];
    by injection 1 as _ <-.
Qed.

Lemma polls_interval ps server b s bs s' :
  polls env ps server b s bs s' ->
  WaitForBackupSeconds s' = WaitForBackupSeconds s.
Proof.
  induction 1 as [|b s b1 s1 bs s2 Hget _ IH]; [reflexivity|].
  rewrite IH. by eapply GetServerBackup_interval.
Qed.

Lemma BackupServer_interval ps server s r s' :
  BackupServer env ps server s = (r, s') ->
  WaitForBackupSeconds s' = WaitForBackupSeconds s.
Proof.
  unfold BackupServer, callApi, http_NewRequest. run_M.
  destruct (NewRequest_err _ _ _); [by injection 1 as _ <-|].
  destruct (round_trip _ _ _) as [?|res]; [by injection 1 as _ <-|].
  destruct (negb _); destruct (json_Unmarshal _ _) as [? [?|]];
    by injection 1 as _ <-.
Qed.

(** The one sleep of a completed wait lasts the poll interval the wait
    started with, multiplied by 10^9 in 64-bit arithmetic: it is that many
    seconds exactly when the product fits in 64 bits, and wraps around
    otherwise.  The wait leaves the poll interval as it found it. *)
Theorem BackupServerWithWait_sleep_duration ps server s b0 s0 pend bN sN fuel :
  BackupServer env ps server s = (Done (b0, None), s0) ->
  polls env ps server b0 s0 (pend ++ [bN]) sN ->
  Forall is_pending pend ->
  ~ is_pending bN ->
  (length pend < fuel)%nat ->
  let d := Duration_mul (wrap64 (WaitForBackupSeconds s)) time_Second in
  exists s',
    BackupServerWithWait env fuel ps server s = (Done (Some bN, None), s')
    /\ trace s' = trace sN ++ [EvSleep d; EvLog "debug" "Waiting for backup..."]
    /\ WaitForBackupSeconds s' = WaitForBackupSeconds s
    /\ (d = WaitForBackupSeconds s * 1000000000
        <-> - 2 ^ 63 <= WaitForBackupSeconds s * 1000000000 < 2 ^ 63).
Proof.
  intros Hb Hpolls Hpend HbN Hfuel d.
  assert (WaitForBackupSeconds sN = WaitForBackupSeconds s) as Hint.
  { rewrite (polls_interval _ _ _ _ _ _ Hpolls).
    by eapply BackupServer_interval. }
  apply polls_snoc in Hpolls as (sK & Hpre & Hlast).
  eexists. split; [|split; [|split]].
  - unfold BackupServerWithWait. run_M. rewrite Hb.
    replace fuel with (length pend + S (fuel - S (length pend)))%nat by lia.
    rewrite (wait_loop_pending _ _ _ _ _ _ _ _ Hpre Hpend).
    cbn [wait_loop]. run_M. rewrite Hlast.
    unfold is_pending in HbN. apply not_true_is_false in HbN. rewrite HbN.
    reflexivity.
  - cbn [trace emit]. rewrite <- app_assoc, Hint. reflexivity.
  - exact Hint.
  - subst d. unfold Duration_mul, time_Second. split.
    + intros <-. apply wrap64_range.
    + intros Hfit. rewrite (wrap64_small (WaitForBackupSeconds s)) by lia.
      by apply wrap64_small.
Qed.

Lemma GetServerBackup_sent ps server backupId s r s' :
  GetServerBackup env ps server backupId s = (Done r, s') ->
  requests (trace s')
  = requests (trace s)
    ++ [api_request ps http_MethodGet ApiEndpointServer
          [server_UUID (server_Attributes server); ApiEndpointBackups; backupId]
          ∅].
Proof.
  unfold GetServerBackup. run_M.
  destruct (NewRequest_err env http_MethodGet
              (buildApiUrl ps ApiEndpointServer
                 [server_UUID (server_Attributes server); ApiEndpointBackups;
                  backupId])) as [e|] eqn:Hreq.
  - rewrite callApi_rejected by by rewrite Hreq. discriminate.
  - rewrite (callApi_accepted _ _ _ _ _ _ _ _ Hreq). cbv zeta.
    destruct (round_trip _ _ _) as [e|res]; run_M.
    + injection 1 as _ <-. by rewrite requests_emit.
    + destruct (api_result _ _) as [b [e|]]; run_M; injection 1 as _ <-;
        by rewrite !requests_emit, !app_nil_r.
Qed.

Lemma BackupServer_sent ps server s r s' :
  BackupServer env ps server s = (Done r, s') ->
  requests (trace s')
  = requests (trace s)
    ++ [api_request ps http_MethodPost
          (sprintf_s_s_s ApiEndpointServer
             (server_UUID (server_Attributes server)) ApiEndpointBackups) [] ∅].
Proof.
  unfold BackupServer. run_M.
  destruct (NewRequest_err env http_MethodPost
              (buildApiUrl ps
                 (sprintf_s_s_s ApiEndpointServer
                    (server_UUID (server_Attributes server))
                    ApiEndpointBackups) [])) as [e|] eqn:Hreq.
  - rewrite callApi_rejected by by rewrite Hreq. discriminate.
  - rewrite (callApi_accepted _ _ _ _ _ _ _ _ Hreq). cbv zeta.
    destruct (round_trip _ _ _) as [e|res]; run_M.
    + injection 1 as _ <-. by rewrite requests_emit.
    + destruct (api_result _ _) as [b [e|]]; run_M; injection 1 as _ <-;
        by rewrite !requests_emit, !app_nil_r.
Qed.

Lemma polls_sent ps server b s bs s' :
  polls env ps server b s bs s' ->
  requests (trace s')
  = requests (trace s)
    ++ ((fun held => fetch_request ps server (backup_UUID (backup_Attributes held)))
        <$> take (length bs) (b :: bs)).
Proof.
  induction 1 as [b s|b s b1 s1 bs s2 Hget _ IH].
  - by rewrite app_nil_r.
  - rewrite IH, (GetServerBackup_sent _ _ _ _ _ _ Hget), <- app_assoc.
    reflexivity.
Qed.

(** A wait that completes sends the POST and then one GET per read; the
    first GET asks for the id the POST's answer carried and every later one
    for the id the read before it reported, so the wait follows whatever id
    the panel last returned. *)
Theorem BackupServerWithWait_follows_reported_id ps server s b0 s0 pend bN sN
    fuel :
  BackupServer env ps server s = (Done (b0, None), s0) ->
  polls env ps server b0 s0 (pend ++ [bN]) sN ->
  Forall is_pending pend ->
  ~ is_pending bN ->
  (length pend < fuel)%nat ->
  sent_by (BackupServerWithWait env fuel ps server) s
  = api_request ps http_MethodPost
      (sprintf_s_s_s ApiEndpointServer (server_UUID (server_Attributes server))
         ApiEndpointBackups) [] ∅
    :: ((fun held => fetch_request ps server (backup_UUID (backup_Attributes held)))
        <$> b0 :: pend).
Proof.
  intros Hb Hpolls Hpend HbN Hfuel.
  pose proof (polls_sent _ _ _ _ _ _ Hpolls) as Hsent.
  rewrite (BackupServer_sent _ _ _ _ _ Hb) in Hsent.
  assert (take (length (pend ++ [bN])) (b0 :: pend ++ [bN]) = b0 :: pend)
    as Htake.
  { rewrite length_app, Nat.add_comm. simpl.
    by rewrite take_app_length. }
  rewrite Htake, <- app_assoc in Hsent.
  apply polls_snoc in Hpolls as (sK & Hpre & Hlast).
  apply sent_by_app.
  unfold BackupServerWithWait. run_M. rewrite Hb.
  replace fuel with (length pend + S (fuel - S (length pend)))%nat by lia.
  rewrite (wait_loop_pending _ _ _ _ _ _ _ _ Hpre Hpend).
  cbn [wait_loop]. run_M. rewrite Hlast.
  unfold is_pending in HbN. apply not_true_is_false in HbN. rewrite HbN.
  cbn [negb snd]. by rewrite !requests_emit, !app_nil_r.
Qed.

End PollerMore.

(** ** The download flow *)

Section DownloadMore.

Context (env : Env).
Context `{!Unmarshal ApiErrors, !Unmarshal BackupUrl}.

Lemma State_eq (s t : State) :
  WaitForBackupSeconds s = WaitForBackupSeconds t ->
  files s = files t ->
  fd_table s = fd_table t ->
  trace s = trace t ->
  s = t.
Proof. destruct s, t; simpl; by intros -> -> -> ->. Qed.

Lemma requests_emit_log level msg s :
  requests (trace (emit (EvLog level msg) s)) = requests (trace s).
Proof. rewrite requests_emit. apply app_nil_r. Qed.

Lemma requests_emit_close s :
  requests (trace (emit EvBodyClose s)) = requests (trace s).
Proof. rewrite requests_emit. apply app_nil_r. Qed.

Lemma requests_emit_do req s :
  requests (trace (emit (EvDo req) s)) = requests (trace s) ++ [req].
Proof. by rewrite requests_emit. Qed.

Lemma requests_copied_state s1 url destination res part :
  requests (trace (copied_state s1 url destination res part))
  = requests (trace s1) ++ [download_request url].
Proof. unfold copied_state. cbn [trace]. by rewrite requests_app. Qed.

Lemma substring_prefix (n : nat) (s : string) :
  exists rest, s = String.substring 0 n s +:+ rest.
Proof.
  revert n. induction s as [|c s IH]; intros [|n].
  - by exists EmptyString.
  - by exists EmptyString.
  - by exists (String c s).
  - destruct (IH n) as [rest Hrest]. exists rest. simpl.
    by rewrite append_cons, <- Hrest.
Qed.

(** Copying into an open file writes a leading part of the body; all of it
    when no error is reported, and the body's own error is the only error
    when the file takes every byte. *)
Lemma io_Copy_open_prefix f path res s :
  fd_table s !! f = Some (path, true) ->
  exists n err part,
    io_Copy env f res s
    = (Done (n, err),
       emit (EvWrite path part)
         (set_files (<[path := default EmptyString (files s !! path) +:+ part]>
                       (files s))
            (emit EvBodyRead s)))
    /\ (exists rest, Body res = part +:+ rest)
    /\ (err = None -> part = Body res)
    /\ (Write_fault env path = None -> err = BodyErr res /\ part = Body res).
Proof.
  intros Hopen. unfold io_Copy, File_Write. run_M.
  cbn [fd_table emit files]. rewrite Hopen.
  assert (exists rest, Body res = Body res +:+ rest) as Hall
    by (exists EmptyString; by rewrite append_nil_r).
  destruct (Write_fault env path) as [[k e]|].
  - destruct (decide _).
    + destruct (BodyErr res); eexists _, _, _; (split; [reflexivity|]); done.
    + eexists _, _, _. split; [reflexivity|].
      split; [apply substring_prefix|done].
  - destruct (BodyErr res); eexists _, _, _; (split; [reflexivity|]); done.
Qed.

(** The download, step by step. *)
Lemma DownloadServerBackup_run ps server backupId destination s r s' :
  DownloadServerBackup env ps server backupId destination s = (r, s') ->
  match callApi env zero_BackupUrl ps http_MethodGet ApiEndpointServer
          [server_UUID (server_Attributes server); ApiEndpointBackups;
           backupId; "download"] ∅ s with
  | (Done (backupUrl, None), s1) =>
      let url := URL (backupurl_Attributes backupUrl) in
      let s2 :=
        emit (EvLog "trace" ("DownloadServerBackup -> Attempting to download: '"
                             +:+ url +:+ "'")) s1 in
      match NewRequest_err env http_MethodGet url with
      | Some _ => r = Panic nil_dereference /\ s' = s2
      | None =>
          let s3 := emit (EvDo (download_request url)) s2 in
          match round_trip env (length (requests (trace s1)))
                  (download_request url) with
          | inl e => r = Done (None, Some e) /\ s' = s3
          | inr res =>
              let s4 :=
                emit (EvLog "trace" ("DownloadServerBackup -> Status Code: '"
                                     +:+ pretty (StatusCode res) +:+ "'")) s3 in
              if StatusCode res =? http_StatusOK then
                match Create_err env destination with
                | Some e =>
                    r = Done (None, Some e)
                    /\ s' = emit EvBodyClose
                              (emit (EvLog "trace"
                                       ("DownloadServerBackup -> Creating file: '"
                                        +:+ destination +:+ "'")) s4)
                | None =>
                    exists err part,
                      (exists rest, Body res = part +:+ rest)
                      /\ (err = None -> part = Body res)
                      /\ (Write_fault env destination = None ->
                          err = BodyErr res /\ part = Body res)
                      /\ r = Done (match err with
                                   | Some e => (None, Some e)
                                   | None => (Some (length (fd_table s1)), None)
                                   end)
                      /\ s' = copied_state s1 url destination res part
                end
              else
                r = Done (None,
                          Some (ErrorString ("download failed with status code "
                                             +:+ pretty (StatusCode res))))
                /\ s' = emit EvBodyClose s4
          end
      end
  | (Done (_, Some e), s1) => r = Done (None, Some e) /\ s' = s1
  | (Panic msg, s1) => r = Panic msg /\ s' = s1
  | (OutOfFuel, s1) => r = OutOfFuel /\ s' = s1
  end.
Proof.
  unfold DownloadServerBackup. run_M.
  destruct (callApi _ _ _ _ _ _ _ s) as [[[bu [e|]]|msg|] s1] eqn:Hcall.
  1,3,4: by injection 1 as <- <-.
  cbv zeta. unfold http_NewRequest.
  destruct (NewRequest_err _ _ _) as [e|] eqn:Hreq; [by injection 1 as <- <-|].
  rewrite requests_emit, app_nil_r.
  change {| req_Method := _; req_URL := _; req_Header := _; req_Body := _ |}
    with (download_request (URL (backupurl_Attributes bu))).
  destruct (round_trip _ _ _) as [e|res] eqn:Hres; [by injection 1 as <- <-|].
  destruct (StatusCode res =? http_StatusOK) eqn:Hst;
    [|by injection 1 as <- <-].
  rewrite os_Create_run.
  destruct (Create_err env destination) as [e|] eqn:Hcreate; run_M;
    [by injection 1 as <- <-|].
  cbn [fd_table files emit].
  match goal with
  | |- context [io_Copy env _ res ?st] => set (s4 := st)
  end.
  assert (fd_table s4 !! length (fd_table s1) = Some (destination, true))
    as Hopen by (cbn; apply list_lookup_middle; done).
  destruct (io_Copy_open_prefix _ _ res _ Hopen)
    as (n & err & part & -> & Hpre & Hall & Hnofault).
  intros Hrun. exists err, part.
  do 3 (split; [done|]).
  assert (forall o : option nat * option error,
            (Done o,
             emit EvBodyClose
               (emit (EvFileClose (length (fd_table s1)))
                  (set_fd_table
                     (<[length (fd_table s1) := (destination, false)]>
                        (fd_table s4))
                     (emit (EvWrite destination part)
                        (set_files
                           (<[destination :=
                                default EmptyString (files s4 !! destination)
                                +:+ part]> (files s4))
                           (emit EvBodyRead s4))))))
            = (r, s') ->
            r = Done o
            /\ s' = copied_state s1 (URL (backupurl_Attributes bu)) destination
                      res part) as Hend.
  { intros o. injection 1 as <- <-. split; [reflexivity|].
    apply State_eq;
      cbn [files fd_table trace emit set_files set_fd_table s4 copied_state
           WaitForBackupSeconds].
    - reflexivity.
    - rewrite lookup_insert_eq. cbn [default]. by rewrite insert_insert_eq.
    - rewrite insert_app_r_alt by done. by rewrite Nat.sub_diag.
    - by rewrite <- !app_assoc. }
  destruct err as [e|]; run_M in Hrun;
    (erewrite File_Close_open in Hrun by exact Hopen);
    by apply Hend in Hrun.
Qed.

Lemma callApi_interval {T : Type} `{!Unmarshal T} (apiObject : T) ps method
    endpoint subPaths data s :
  WaitForBackupSeconds
    (callApi env apiObject ps method endpoint subPaths data s).2
  = WaitForBackupSeconds s.
Proof.
  destruct (NewRequest_err env method (buildApiUrl ps endpoint subPaths))
    as [e|] eqn:Hreq.
  - by rewrite callApi_rejected by by rewrite Hreq.
  - rewrite (callApi_accepted _ _ _ _ _ _ _ _ Hreq). cbv zeta.
    by destruct (round_trip _ _ _).
Qed.

(** A 200 from the signed URL, a destination that can be created and
    written, and a body that ends cleanly: the download returns the new
    handle and no error, the destination holds exactly the body, whatever it
    held before, and no other file is touched. *)
Theorem DownloadServerBackup_writes_body ps server backupId destination s
    backupUrl s1 res :
  let url := URL (backupurl_Attributes backupUrl) in
  callApi env zero_BackupUrl ps http_MethodGet ApiEndpointServer
    [server_UUID (server_Attributes server); ApiEndpointBackups; backupId;
     "download"] ∅ s = (Done (backupUrl, None), s1) ->
  NewRequest_err env http_MethodGet url = None ->
  round_trip env (length (requests (trace s1))) (download_request url) = inr res ->
  StatusCode res = http_StatusOK ->
  Create_err env destination = None ->
  Write_fault env destination = None ->
  BodyErr res = None ->
  exists s',
    DownloadServerBackup env ps server backupId destination s
    = (Done (Some (length (fd_table s)), None), s')
    /\ files s' !! destination = Some (Body res)
    /\ (forall p, p <> destination -> files s' !! p = files s !! p)
    /\ fd_table s' = fd_table s ++ [(destination, false)].
Proof.
  intros url Hcall Hreq Hres Hst Hcreate Hfault Hclean.
  destruct (callApi_frame _ _ _ _ _ _ _ _ _ _ Hcall) as (Hfiles & Hfds & _).
  destruct (DownloadServerBackup _ _ _ _ _ s) as [r s'] eqn:Hrun.
  apply DownloadServerBackup_run in Hrun. rewrite Hcall in Hrun.
  cbv zeta in Hrun. fold url in Hrun.
  rewrite Hreq, Hres, (proj2 (Z.eqb_eq _ _) Hst), Hcreate in Hrun.
  destruct Hrun as (err & part & _ & _ & Hnf & -> & ->).
  destruct (Hnf Hfault) as [-> ->]. rewrite Hclean, <- Hfds.
  exists (copied_state s1 url destination res (Body res)).
  split; [reflexivity|]. cbn [copied_state files fd_table].
  split; [by rewrite lookup_insert_eq|]. split; [|by rewrite Hfds].
  intros p Hp. by rewrite lookup_insert_ne, Hfiles.
Qed.

(** Once the destination is created the download always closes its handle
    and leaves a leading part of the body in the file.  A handle is returned
    only when the whole body was copied; when the body ends in a read error
    and every write succeeds, that error is returned, with no handle, and
    the bytes read stay in the file. *)
Theorem DownloadServerBackup_interrupted ps server backupId destination s
    backupUrl s1 res :
  let url := URL (backupurl_Attributes backupUrl) in
  callApi env zero_BackupUrl ps http_MethodGet ApiEndpointServer
    [server_UUID (server_Attributes server); ApiEndpointBackups; backupId;
     "download"] ∅ s = (Done (backupUrl, None), s1) ->
  NewRequest_err env http_MethodGet url = None ->
  round_trip env (length (requests (trace s1))) (download_request url) = inr res ->
  StatusCode res = http_StatusOK ->
  Create_err env destination = None ->
  exists r s' part rest,
    DownloadServerBackup env ps server backupId destination s = (r, s')
    /\ Body res = part +:+ rest
    /\ files s' !! destination = Some part
    /\ fd_table s' = fd_table s ++ [(destination, false)]
    /\ (forall f, r = Done (Some f, None) -> part = Body res)
    /\ (forall e, BodyErr res = Some e -> Write_fault env destination = None ->
        r = Done (None, Some e) /\ part = Body res).
Proof.
  intros url Hcall Hreq Hres Hst Hcreate.
  destruct (callApi_frame _ _ _ _ _ _ _ _ _ _ Hcall) as (Hfiles & Hfds & _).
  destruct (DownloadServerBackup _ _ _ _ _ s) as [r s'] eqn:Hrun.
  apply DownloadServerBackup_run in Hrun. rewrite Hcall in Hrun.
  cbv zeta in Hrun. fold url in Hrun.
  rewrite Hreq, Hres, (proj2 (Z.eqb_eq _ _) Hst), Hcreate in Hrun.
  destruct Hrun as (err & part & [rest Hrest] & Hall & Hnf & -> & ->).
  exists (Done match err with
               | Some e => (None, Some e)
               | None => (Some (length (fd_table s1)), None)
               end),
         (copied_state s1 url destination res part), part, rest.
  split; [reflexivity|]. split; [exact Hrest|].
  cbn [copied_state files fd_table].
  split; [by rewrite lookup_insert_eq|]. split; [by rewrite Hfds|]. split.
  - intros f Hf. apply Hall. by destruct err.
  - intros e He Hfault. destruct (Hnf Hfault) as [-> ->]. by rewrite He.
Qed.

(** A 200 from the signed URL but a destination that cannot be created: the
    error of [os.Create] is returned with no handle; no file or handle
    changes, and the body is closed without having been read. *)
Theorem DownloadServerBackup_create_fails ps server backupId destination s
    backupUrl s1 res e :
  let url := URL (backupurl_Attributes backupUrl) in
  callApi env zero_BackupUrl ps http_MethodGet ApiEndpointServer
    [server_UUID (server_Attributes server); ApiEndpointBackups; backupId;
     "download"] ∅ s = (Done (backupUrl, None), s1) ->
  NewRequest_err env http_MethodGet url = None ->
  round_trip env (length (requests (trace s1))) (download_request url) = inr res ->
  StatusCode res = http_StatusOK ->
  Create_err env destination = Some e ->
  exists s',
    DownloadServerBackup env ps server backupId destination s
    = (Done (None, Some e), s')
    /\ files s' = files s /\ fd_table s' = fd_table s
    /\ trace s'
       = trace s1
         ++ [EvLog "trace" ("DownloadServerBackup -> Attempting to download: '"
                            +:+ url +:+ "'");
             EvDo (download_request url);
             EvLog "trace" ("DownloadServerBackup -> Status Code: '"
                            +:+ pretty (StatusCode res) +:+ "'");
             EvLog "trace" ("DownloadServerBackup -> Creating file: '"
                            +:+ destination +:+ "'");
             EvBodyClose].
Proof.
  intros url Hcall Hreq Hres Hst Hcreate.
  destruct (callApi_frame _ _ _ _ _ _ _ _ _ _ Hcall) as (Hfiles & Hfds & _).
  destruct (DownloadServerBackup _ _ _ _ _ s) as [r s'] eqn:Hrun.
  apply DownloadServerBackup_run in Hrun. rewrite Hcall in Hrun.
  cbv zeta in Hrun. fold url in Hrun.
  rewrite Hreq, Hres, (proj2 (Z.eqb_eq _ _) Hst), Hcreate in Hrun.
  destruct Hrun as [-> ->]. eexists. split; [reflexivity|].
  cbn [files fd_table trace emit]. do 2 (split; [done|]).
  by rewrite <- !app_assoc.
Qed.

(** Whatever the signed URL answers, once its response has arrived the
    download returns (it does not panic) and the last thing it does is close
    the response body. *)
Theorem DownloadServerBackup_closes_body ps server backupId destination s
    backupUrl s1 res :
  let url := URL (backupurl_Attributes backupUrl) in
  callApi env zero_BackupUrl ps http_MethodGet ApiEndpointServer
    [server_UUID (server_Attributes server); ApiEndpointBackups; backupId;
     "download"] ∅ s = (Done (backupUrl, None), s1) ->
  NewRequest_err env http_MethodGet url = None ->
  round_trip env (length (requests (trace s1))) (download_request url) = inr res ->
  exists r s' tr,
    DownloadServerBackup env ps server backupId destination s = (Done r, s')
    /\ trace s' = trace s1 ++ tr ++ [EvBodyClose]
    /\ requests tr = [download_request url].
Proof.
  intros url Hcall Hreq Hres.
  destruct (DownloadServerBackup _ _ _ _ _ s) as [r s'] eqn:Hrun.
  apply DownloadServerBackup_run in Hrun. rewrite Hcall in Hrun.
  cbv zeta in Hrun. fold url in Hrun. rewrite Hreq, Hres in Hrun.
  destruct (StatusCode res =? http_StatusOK);
    [destruct (Create_err env destination)|].
  - destruct Hrun as [-> ->]. eexists _, _, [_; _; _; _].
    split; [reflexivity|]. cbn [trace emit]. by rewrite <- !app_assoc.
  - destruct Hrun as (err & part & _ & _ & _ & -> & ->).
    eexists _, _, [_; _; _; _; _; _; _; _; _]. split; [reflexivity|].
    by cbn [trace copied_state].
  - destruct Hrun as [-> ->]. eexists _, _, [_; _; _].
    split; [reflexivity|]. cbn [trace emit]. by rewrite <- !app_assoc.
Qed.

(** Splits a download into its possible courses. *)
Ltac download_courses ps server backupId destination s :=
  let Hrun := fresh "Hrun" in
  let Hcall := fresh "Hcall" in
  destruct (DownloadServerBackup _ ps server backupId destination s)
    as [?r ?s'] eqn:Hrun;
  apply DownloadServerBackup_run in Hrun;
  destruct (callApi _ zero_BackupUrl ps http_MethodGet ApiEndpointServer
              [server_UUID (server_Attributes server); ApiEndpointBackups;
               backupId; "download"] ∅ s)
    as [[[?bu [?e|]]|?msg|] ?s1] eqn:Hcall;
  [ destruct Hrun as [-> ->]
  | cbv zeta in Hrun;
    destruct (NewRequest_err _ http_MethodGet (URL (backupurl_Attributes _)))
      as [?e|] eqn:?Hreq;
    [ destruct Hrun as [-> ->]
    | destruct (round_trip _ _ (download_request _)) as [?e|?res] eqn:?Hres;
      [ destruct Hrun as [-> ->]
      | destruct (StatusCode _ =? http_StatusOK) eqn:?Hst;
        [ destruct (Create_err _ destination) as [?e|] eqn:?Hcreate;
          [ destruct Hrun as [-> ->]
          | destruct Hrun as (?err & ?part & ?Hpre & ?Hall & ?Hnf & -> & ->) ]
        | destruct Hrun as [-> ->] ] ] ]
  | destruct Hrun as [-> ->]
  | destruct Hrun as [-> ->] ].

(** In every run the download leaves the poll interval and every file other
    than the destination as they were, and leaves no handle open that was
    not open before: the handle table is unchanged or has gained the
    destination's handle, closed. *)
Theorem DownloadServerBackup_frame ps server backupId destination s :
  let s' := (DownloadServerBackup env ps server backupId destination s).2 in
  WaitForBackupSeconds s' = WaitForBackupSeconds s
  /\ (forall p, p <> destination -> files s' !! p = files s !! p)
  /\ (fd_table s' = fd_table s
      \/ fd_table s' = fd_table s ++ [(destination, false)])
  /\ forall f path,
       fd_table s' !! f = Some (path, true) ->
       fd_table s !! f = Some (path, true).
Proof.
  cbv zeta.
  pose proof (callApi_interval zero_BackupUrl ps http_MethodGet
                ApiEndpointServer
                [server_UUID (server_Attributes server); ApiEndpointBackups;
                 backupId; "download"] ∅ s) as Hint.
  assert (forall f path,
            (fd_table s ++ [(destination, false)]) !! f = Some (path, true) ->
            fd_table s !! f = Some (path, true)) as Hclosed.
  { intros f path Hf.
    destruct (decide (f < length (fd_table s))%nat) as [Hlt|Hge].
    - by rewrite lookup_app_l in Hf.
    - rewrite lookup_app_r in Hf by lia.
      destruct (f - length (fd_table s))%nat; simplify_eq/=. }
  download_courses ps server backupId destination s;
    destruct (callApi_frame _ _ _ _ _ _ _ _ _ _ Hcall) as (Hfiles & Hfds & _);
    cbn [snd] in Hint |- *;
    cbn [WaitForBackupSeconds files fd_table emit copied_state];
    rewrite ?Hfiles, ?Hfds;
    try (split; [done|]; split; [done|]; split; [by left|]; by intros).
  split; [done|]. split; [intros p Hp; by rewrite lookup_insert_ne|].
  split; [by right|]. exact Hclosed.
Qed.

(** The download sends nothing, or its panel request alone, or the panel
    request followed by one GET to the signed URL the panel returned; the
    second is sent only after the first call returned without error, and it
    carries the [Accept] header only, so the bearer credential goes to the
    panel and never to the signed URL. *)
Theorem DownloadServerBackup_requests ps server backupId destination s :
  let first :=
    api_request ps http_MethodGet ApiEndpointServer
      [server_UUID (server_Attributes server); ApiEndpointBackups; backupId;
       "download"] ∅ in
  let sent :=
    sent_by (DownloadServerBackup env ps server backupId destination) s in
  (sent = [] \/ sent = [first]
   \/ exists backupUrl s1,
        callApi env zero_BackupUrl ps http_MethodGet ApiEndpointServer
          [server_UUID (server_Attributes server); ApiEndpointBackups;
           backupId; "download"] ∅ s = (Done (backupUrl, None), s1)
        /\ sent = [first; download_request (URL (backupurl_Attributes backupUrl))])
  /\ forall r, r ∈ drop 1 sent ->
       req_Header r = [("Accept", "application/json")] /\ req_Body r = None.
Proof.
  intros first sent.
  pose proof (callApi_sent env zero_BackupUrl ps http_MethodGet
                ApiEndpointServer
                [server_UUID (server_Attributes server); ApiEndpointBackups;
                 backupId; "download"] ∅ s) as Hfirst.
  fold first in Hfirst.
  assert (forall l : list Request, l = [] \/ l = [first] ->
            (l = [] \/ l = [first]
             \/ exists backupUrl s1,
                  callApi env zero_BackupUrl ps http_MethodGet ApiEndpointServer
                    [server_UUID (server_Attributes server); ApiEndpointBackups;
                     backupId; "download"] ∅ s = (Done (backupUrl, None), s1)
                  /\ l = [first;
                          download_request (URL (backupurl_Attributes backupUrl))])
            /\ forall r, r ∈ drop 1 l ->
                 req_Header r = [("Accept", "application/json")]
                 /\ req_Body r = None) as Hshort.
  { intros l [->| ->]; (split; [by auto|]); by intros r ?%elem_of_nil. }
  assert (first_sent :
            sent_by (callApi env zero_BackupUrl ps http_MethodGet
                       ApiEndpointServer
                       [server_UUID (server_Attributes server);
                        ApiEndpointBackups; backupId; "download"] ∅) s = []
            \/ sent_by (callApi env zero_BackupUrl ps http_MethodGet
                          ApiEndpointServer
                          [server_UUID (server_Attributes server);
                           ApiEndpointBackups; backupId; "download"] ∅) s
               = [first]).
  { rewrite Hfirst. destruct (NewRequest_err _ _ _); auto. }
  subst sent. unfold sent_by in *.
  download_courses ps server backupId destination s;
    cbn [snd] in first_sent, Hfirst |- *;
    rewrite ?requests_copied_state, ?requests_emit_close, ?requests_emit_log,
      ?requests_emit_do, ?requests_emit_log.
  1,2,7,8: by apply Hshort.
  all: assert (drop (length (requests (trace s))) (requests (trace s1)) = [first])
         as Hone
         by (destruct (NewRequest_err env http_MethodGet
                         (buildApiUrl ps ApiEndpointServer
                            [server_UUID (server_Attributes server);
                             ApiEndpointBackups; backupId; "download"]))
               eqn:Hrej; [|done];
             rewrite callApi_rejected in Hcall by (by rewrite Hrej);
             discriminate).
  all: assert (length (requests (trace s)) <= length (requests (trace s1)))%nat
         as Hle
         by (destruct (callApi_frame _ _ _ _ _ _ _ _ _ _ Hcall)
               as (_ & _ & tr & -> & _);
             rewrite requests_app, length_app; lia).
  all: rewrite drop_app_le, Hone by done; split; [by eauto 10|].
  all: by intros r ->%list_elem_of_singleton.
Qed.

(** The download panics exactly when [http.NewRequest] rejects one of its
    two URLs: the panel URL, or the signed URL the panel returned after a
    first call without error. *)
Theorem DownloadServerBackup_panics_iff ps server backupId destination s :
  (exists msg,
     (DownloadServerBackup env ps server backupId destination s).1 = Panic msg)
  <-> is_Some (NewRequest_err env http_MethodGet
                 (buildApiUrl ps ApiEndpointServer
                    [server_UUID (server_Attributes server); ApiEndpointBackups;
                     backupId; "download"]))
      \/ exists backupUrl s1,
           callApi env zero_BackupUrl ps http_MethodGet ApiEndpointServer
             [server_UUID (server_Attributes server); ApiEndpointBackups;
              backupId; "download"] ∅ s = (Done (backupUrl, None), s1)
           /\ is_Some (NewRequest_err env http_MethodGet
                         (URL (backupurl_Attributes backupUrl))).
Proof.
  assert (forall r s1,
            callApi env zero_BackupUrl ps http_MethodGet ApiEndpointServer
              [server_UUID (server_Attributes server); ApiEndpointBackups;
               backupId; "download"] ∅ s = (r, s1) ->
            (exists msg, r = Panic msg)
            <-> is_Some (NewRequest_err env http_MethodGet
                           (buildApiUrl ps ApiEndpointServer
                              [server_UUID (server_Attributes server);
                               ApiEndpointBackups; backupId; "download"])))
    as Hfirst.
  { intros r s1.
    destruct (NewRequest_err _ _ _) as [e|] eqn:Hrej.
    - rewrite callApi_rejected by by rewrite Hrej.
      injection 1 as <- <-. split; [done|]. by eexists.
    - rewrite (callApi_accepted _ _ _ _ _ _ _ _ Hrej). cbv zeta.
      destruct (round_trip _ _ _); injection 1 as <- <-;
        (split; [by intros [? ?]|by intros [? ?]]). }
  download_courses ps server backupId destination s;
    specialize (Hfirst _ _ eq_refl); cbn [fst].
  all: split;
    [ intros [msg' Hp];
      try discriminate Hp;
      try (destruct err; discriminate Hp);
      first [ left; apply Hfirst; by eexists
            | right; eexists _, _; split; [reflexivity|]; by rewrite Hreq ]
    | intros [Hrej|(bu' & s1' & Heq & Hrej)];
      [ apply Hfirst in Hrej as [? ?]; simplify_eq; by eexists
      | simplify_eq; try (by eexists);
        rewrite ?Hreq in Hrej; by destruct Hrej ] ].
Qed.

End DownloadMore.

(** * Worked runs against the sample panel *)

Import Sample.

(** A 404 with an error payload: the call fails with the aggregated error. *)
Lemma callApi_response_witness :
  exists r s',
    callApi (panel [inr not_found]) zero_Backup ps http_MethodGet
      ApiEndpointServer ["srv-1"; "backups"; "bk-1"] ∅ initial_State
    = (Done r, s')
    /\ r = (zero_Backup,
            Some (ErrorString
                    "api call failed with errors: {[{NotFoundHttpException backup not found}]}")).
Proof.
  destruct (callApi_response (panel [inr not_found]) zero_Backup ps
              http_MethodGet ApiEndpointServer ["srv-1"; "backups"; "bk-1"] ∅
              initial_State not_found eq_refl eq_refl)
    as (r & s' & Hrun & _ & Hne).
  exists r, s'. split; [exact Hrun|].
  assert (StatusCode not_found <> http_StatusOK) as Hst by discriminate.
  destruct (Hne Hst) as (msg & -> & -> & _). reflexivity.
Defined.

(** A 200 whose collection field is absent: "no servers returned". *)
Lemma nil_collection_is_an_error_witness :
  (GetServers (panel [reply 200 body_servers_absent]) ps initial_State).1
  = Done (None, Some (ErrorString "no servers returned")).
Proof.
  destruct (nil_collection_is_an_error (panel [reply 200 body_servers_absent]) ps)
    as [Hservers _].
  destruct (Hservers initial_State
              {| StatusCode := 200; Body := body_servers_absent; BodyErr := None |}
              zero_Servers eq_refl eq_refl eq_refl eq_refl) as [Hnil _].
  exact (Hnil eq_refl).
Defined.

(** A 200 whose collection field is an empty array decodes to an empty,
    non-nil slice, and [GetServers] returns it without an error. *)
Lemma GetServers_empty_collection_succeeds :
  Servers_Servers (json_Unmarshal body_servers_empty zero_Servers).1 = Some []
  /\ (GetServers (panel [reply 200 body_servers_empty]) ps initial_State).1
     = Done (Some [], None)
  /\ (GetServers (panel [reply 200 body_servers_empty]) ps initial_State).1
     <> Done (None, Some (ErrorString "no servers returned")).
Proof. split; [reflexivity|]. split; [reflexivity|discriminate]. Qed.

(** A rejected URL: the request is nil, [callApi] panics and nothing reaches
    the HTTP client.  A body cut short after a whole document is decoded as
    it was read, where an empty body would not decode. *)
Lemma callApi_nil_request_panics :
  NewRequest_err (panel [reply 200 body_servers_absent]) http_MethodGet
    (buildApiUrl bad_ps ApiEndpointServers [])
  = Some (ErrorString "net/url: invalid control character in URL")
  /\ callApi (panel [reply 200 body_servers_absent]) zero_Servers bad_ps
       http_MethodGet ApiEndpointServers [] ∅ initial_State
     = (Panic nil_dereference, initial_State)
  /\ requests (trace initial_State) = []
  /\ (callApi (panel [inr cut_short]) zero_Server ps http_MethodGet
        ApiEndpointServer ["srv-1"] ∅ initial_State).1
     = Done (srv, None)
  /\ (json_Unmarshal EmptyString zero_Server).2 = syntax_error.
Proof. repeat split; reflexivity. Qed.

(** The signed URL answers 404: the error names the code and no file is
    made. *)
Lemma DownloadServerBackup_status_gate_witness :
  exists s',
    DownloadServerBackup (panel [reply 200 body_url; inr not_found]) ps srv
      "bk-1" destination initial_State
    = (Done (None, Some (ErrorString "download failed with status code 404")), s')
    /\ files s' = ∅ /\ fd_table s' = [].
Proof.
  destruct (DownloadServerBackup (panel [reply 200 body_url; inr not_found])
              ps srv "bk-1" destination initial_State) as [r s'] eqn:Hrun.
  destruct (DownloadServerBackup_status_gate _ _ _ _ _ _ _ _ Hrun) as [_ Hrefused].
  edestruct Hrefused as (-> & Hfiles & Hfds & _);
    [reflexivity|reflexivity|reflexivity|discriminate|].
  exists s'. split; [reflexivity|]. by split.
Defined.

(** A download that succeeds returns handle 0, closed. *)
Lemma DownloadServerBackup_returns_closed_file_witness :
  exists s',
    DownloadServerBackup (panel [reply 200 body_url; reply 200 body_archive]) ps
      srv "bk-1" destination initial_State
    = (Done (Some 0%nat, None), s')
    /\ fd_table s' !! 0%nat = Some (destination, false)
    /\ File_Write (panel []) 0 "more" s' = (Done (0%nat, Some ErrClosed), s').
Proof.
  destruct (DownloadServerBackup (panel [reply 200 body_url; reply 200 body_archive])
              ps srv "bk-1" destination initial_State) as [r s'] eqn:Hrun.
  assert (r = Done (Some 0%nat, None)) as ->
    by (apply (f_equal fst) in Hrun; by vm_compute in Hrun).
  destruct (DownloadServerBackup_returns_closed_file _ _ _ _ _ _ _ _ Hrun)
    as (_ & Hclosed & _ & Hwrite).
  exists s'. split; [reflexivity|]. split; [exact Hclosed|].
  by eapply File_Write_closed.
Defined.

(** Two pending reads and a completed one: three fetches. *)
Lemma BackupServerWithWait_fetches_until_completed_witness :
  exists s',
    BackupServerWithWait
      (panel [reply 200 body_pending; reply 200 body_pending;
              reply 200 body_pending; reply 200 body_completed])
      3 ps srv initial_State
    = (Done (Some completed, None), s')
    /\ length (requests (trace s')) = 4%nat.
Proof.
  epose proof
    (BackupServerWithWait_fetches_until_completed
       (panel [reply 200 body_pending; reply 200 body_pending;
               reply 200 body_pending; reply 200 body_completed])
       ps srv initial_State pending _ [pending; pending] completed _ 3) as Hwait.
  edestruct Hwait as (s' & Hrun & Hcount & _).
  - vm_compute. reflexivity.
  - eapply polls_cons; [vm_compute; reflexivity|].
    eapply polls_cons; [vm_compute; reflexivity|].
    eapply polls_cons; [vm_compute; reflexivity|]. apply polls_nil.
  - by repeat constructor.
  - discriminate.
  - simpl. lia.
  - exists s'. split; [exact Hrun|]. rewrite Hcount. reflexivity.
Defined.

(** A pending read, then the connection is refused: the wait ends with the
    transport error after two fetches. *)
Lemma BackupServerWithWait_aborts_on_fetch_error_witness :
  exists s',
    BackupServerWithWait (panel [reply 200 body_pending; reply 200 body_pending])
      5 ps srv initial_State
    = (Done (None, Some (ErrTransport "connection refused")), s')
    /\ length (requests (trace s')) = 3%nat.
Proof.
  epose proof
    (BackupServerWithWait_aborts_on_fetch_error
       (panel [reply 200 body_pending; reply 200 body_pending])
       ps srv initial_State pending _ [pending] _ zero_Backup
       (ErrTransport "connection refused") _ 5) as Hwait.
  edestruct Hwait as (Hrun & Hcount).
  - vm_compute. reflexivity.
  - eapply polls_cons; [vm_compute; reflexivity|]. apply polls_nil.
  - by repeat constructor.
  - vm_compute. reflexivity.
  - simpl. lia.
  - eexists. split; [exact Hrun|]. rewrite Hcount. reflexivity.
Defined.

(** Both operations address [https://panel/api/client/servers/srv-1/backups]. *)
Lemma BackupServer_GetServerBackups_same_url_witness :
  exists post get,
    requests (trace (BackupServer (panel []) ps srv initial_State).2) = [post]
    /\ requests (trace (GetServerBackups (panel []) ps srv initial_State).2) = [get]
    /\ req_Method post = "POST" /\ req_Method get = "GET"
    /\ req_URL post = "https://panel/api/client/servers/srv-1/backups"
    /\ req_URL get = "https://panel/api/client/servers/srv-1/backups".
Proof.
  exact (BackupServer_GetServerBackups_same_url (panel []) ps srv initial_State
           eq_refl eq_refl).
Defined.

(** C1: on a backup that is pending at the first fetch and completed at the
    second, the code sends the two fetches back to back and sleeps once,
    after the completed read; the documented poller sleeps between the two
    fetches and returns at once on the completed read.  Both return the
    completed record. *)
Theorem BackupServerWithWait_sleeps_after_completion :
  let replies :=
    [reply 200 body_pending; reply 200 body_pending; reply 200 body_completed] in
  BackupServerWithWait (panel replies) 2 ps srv initial_State
  = (Done (Some completed, None),
     {| WaitForBackupSeconds := 5; files := ∅; fd_table := [];
        trace := [EvDo post_backup; EvBodyRead; EvBodyClose;
                  EvDo get_backup; EvBodyRead; EvBodyClose;
                  EvDo get_backup; EvBodyRead; EvBodyClose;
                  EvSleep 5000000000;
                  EvLog "debug" "Waiting for backup..."] |})
  /\ documented_BackupServerWithWait (panel replies) 2 ps srv initial_State
     = (Done (Some completed, None),
        {| WaitForBackupSeconds := 5; files := ∅; fd_table := [];
           trace := [EvDo post_backup; EvBodyRead; EvBodyClose;
                     EvDo get_backup; EvBodyRead; EvBodyClose;
                     EvSleep 5000000000;
                     EvDo get_backup; EvBodyRead; EvBodyClose] |})
  /\ filter (fun e => bool_decide (is_sleep e = true))
       (trace (BackupServerWithWait (panel [reply 200 body_pending;
                                            reply 200 body_completed])
                 1 ps srv initial_State).2)
     = [EvSleep 5000000000].
Proof.
  intros replies. split; [|split].
  - reflexivity.
  - reflexivity.
  - by vm_compute.
Qed.

(** ** Worked runs for the further properties *)

Lemma list_calls_slice_xor_error_witness :
  exists l err s',
    GetServers (panel [reply 200 body_servers_empty]) ps initial_State
    = (Done (l, err), s')
    /\ ((l = None /\ is_Some err) \/ (is_Some l /\ err = None)).
Proof.
  destruct (list_calls_slice_xor_error (panel [reply 200 body_servers_empty]) ps)
    as [Hservers _].
  eexists _, _, _. split; [vm_compute; reflexivity|].
  eapply (Hservers initial_State). vm_compute. reflexivity.
Defined.

Lemma BackupServerWithWait_returns_completed_witness :
  exists b s',
    BackupServerWithWait
      (panel [reply 200 body_pending; reply 200 body_pending;
              reply 200 body_completed]) 5 ps srv initial_State
    = (Done (Some b, None), s')
    /\ Time_IsZero (CompletedAt (backup_Attributes b)) = false.
Proof.
  epose proof
    (BackupServerWithWait_returns_completed
       (panel [reply 200 body_pending; reply 200 body_pending;
               reply 200 body_completed]) ps srv 5 initial_State
       (Some completed) None _) as Hret.
  edestruct Hret as [[Hnone _]|(b & Hb & _ & Hdone)].
  - vm_compute. reflexivity.
  - discriminate Hnone.
  - injection Hb as <-. eexists _, _. split; [|exact Hdone].
    vm_compute. reflexivity.
Defined.

Lemma BackupServerWithWait_polls_without_pause_witness :
  exists sK,
    BackupServerWithWait
      (panel [reply 200 body_pending; reply 200 body_pending;
              reply 200 body_pending]) 2 ps srv initial_State
    = (OutOfFuel, sK)
    /\ length (requests (trace sK)) = 3%nat.
Proof.
  epose proof
    (BackupServerWithWait_polls_without_pause
       (panel [reply 200 body_pending; reply 200 body_pending;
               reply 200 body_pending])
       ps srv initial_State pending _ [pending; pending] _) as Hwait.
  edestruct Hwait as (Hrun & Hcount & _).
  - vm_compute. reflexivity.
  - eapply polls_cons; [vm_compute; reflexivity|].
    eapply polls_cons; [vm_compute; reflexivity|]. apply polls_nil.
  - by repeat constructor.
  - eexists. split; [exact Hrun|]. rewrite Hcount. reflexivity.
Defined.

Lemma BackupServerWithWait_request_refused_witness :
  (exists e,
     (BackupServerWithWait (panel [inr not_found]) 7 ps srv initial_State).1
     = Done (None, Some e))
  /\ sent_by (BackupServerWithWait (panel [inr not_found]) 7 ps srv)
       initial_State
     = [post_backup].
Proof.
  apply (BackupServerWithWait_request_refused (panel [inr not_found]) ps srv 7
           initial_State).
  - reflexivity.
  - vm_compute. discriminate.
Defined.

Lemma BackupServerWithWait_sleep_duration_witness :
  exists s',
    BackupServerWithWait
      (panel [reply 200 body_pending; reply 200 body_pending;
              reply 200 body_completed]) 2 ps srv initial_State
    = (Done (Some completed, None), s')
    /\ last (trace s') = Some (EvLog "debug" "Waiting for backup...")
    /\ EvSleep 5000000000 ∈ trace s'.
Proof.
  epose proof
    (BackupServerWithWait_sleep_duration
       (panel [reply 200 body_pending; reply 200 body_pending;
               reply 200 body_completed])
       ps srv initial_State pending _ [pending] completed _ 2) as Hwait.
  edestruct Hwait as (s' & Hrun & Htrace & _).
  - vm_compute. reflexivity.
  - eapply polls_cons; [vm_compute; reflexivity|].
    eapply polls_cons; [vm_compute; reflexivity|]. apply polls_nil.
  - by repeat constructor.
  - discriminate.
  - simpl. lia.
  - exists s'. split; [exact Hrun|]. rewrite Htrace. split.
    + by rewrite last_app.
    + apply elem_of_app. right. by left.
Defined.

Lemma DownloadServerBackup_writes_body_witness :
  exists s',
    DownloadServerBackup (panel [reply 200 body_url; reply 200 body_archive]) ps
      srv "bk-1" destination
      {| WaitForBackupSeconds := 5; files := {[destination := "old contents"]};
         fd_table := []; trace := [] |}
    = (Done (Some 0%nat, None), s')
    /\ files s' !! destination = Some body_archive.
Proof.
  epose proof
    (DownloadServerBackup_writes_body
       (panel [reply 200 body_url; reply 200 body_archive]) ps srv "bk-1"
       destination
       {| WaitForBackupSeconds := 5; files := {[destination := "old contents"]};
          fd_table := []; trace := [] |} _ _ _) as Hrun.
  edestruct Hrun as (s' & Hdone & Hfile & _).
  - vm_compute. reflexivity.
  - reflexivity.
  - vm_compute. reflexivity.
  - reflexivity.
  - reflexivity.
  - reflexivity.
  - reflexivity.
  - exists s'. split; [exact Hdone|exact Hfile].
Defined.

Lemma DownloadServerBackup_interrupted_witness :
  exists s',
    DownloadServerBackup (panel [reply 200 body_url; inr archive_cut]) ps srv
      "bk-1" destination initial_State
    = (Done (None, Some (ErrRead "unexpected EOF")), s')
    /\ files s' !! destination = Some body_archive
    /\ fd_table s' = [(destination, false)].
Proof.
  epose proof
    (DownloadServerBackup_interrupted
       (panel [reply 200 body_url; inr archive_cut]) ps srv "bk-1" destination
       initial_State _ _ archive_cut) as Hrun.
  edestruct Hrun as (r & s' & part & rest & Hdone & _ & Hfile & Hfds & _ & Hcut).
  - vm_compute. reflexivity.
  - reflexivity.
  - vm_compute. reflexivity.
  - reflexivity.
  - reflexivity.
  - destruct (Hcut (ErrRead "unexpected EOF") eq_refl eq_refl) as [-> ->].
    exists s'. split; [exact Hdone|]. split; [exact Hfile|exact Hfds].
Defined.

Lemma DownloadServerBackup_create_fails_witness :
  exists s',
    DownloadServerBackup
      (panel_read_only [reply 200 body_url; reply 200 body_archive]) ps srv
      "bk-1" destination initial_State
    = (Done (None, Some (ErrFs "permission denied")), s')
    /\ files s' = ∅ /\ fd_table s' = [].
Proof.
  epose proof
    (DownloadServerBackup_create_fails
       (panel_read_only [reply 200 body_url; reply 200 body_archive]) ps srv
       "bk-1" destination initial_State _ _ _ (ErrFs "permission denied"))
    as Hrun.
  edestruct Hrun as (s' & Hdone & Hfiles & Hfds & _).
  - vm_compute. reflexivity.
  - reflexivity.
  - vm_compute. reflexivity.
  - reflexivity.
  - reflexivity.
  - exists s'. split; [exact Hdone|]. by split.
Defined.

Lemma DownloadServerBackup_closes_body_witness :
  exists r s',
    DownloadServerBackup (panel [reply 200 body_url; inr not_found]) ps srv
      "bk-1" destination initial_State
    = (Done r, s')
    /\ last (trace s') = Some EvBodyClose.
Proof.
  epose proof
    (DownloadServerBackup_closes_body
       (panel [reply 200 body_url; inr not_found]) ps srv "bk-1" destination
       initial_State _ _ not_found) as Hrun.
  edestruct Hrun as (r & s' & tr & Hdone & Htrace & _).
  - vm_compute. reflexivity.
  - reflexivity.
  - vm_compute. reflexivity.
  - exists r, s'. split; [exact Hdone|].
    by rewrite Htrace, app_assoc, last_snoc.
Defined.

Lemma BackupServerWithWait_follows_reported_id_witness :
  sent_by
    (BackupServerWithWait
       (panel [reply 200 body_pending; reply 200 body_pending;
               reply 200 body_completed]) 2 ps srv) initial_State
  = [post_backup; get_backup; get_backup].
Proof.
  erewrite (BackupServerWithWait_follows_reported_id
              (panel [reply 200 body_pending; reply 200 body_pending;
                      reply 200 body_completed])
              ps srv initial_State pending _ [pending] completed _ 2).
  - reflexivity.
  - vm_compute. reflexivity.
  - eapply polls_cons; [vm_compute; reflexivity|].
    eapply polls_cons; [vm_compute; reflexivity|]. apply polls_nil.
  - by repeat constructor.
  - discriminate.
  - simpl. lia.
Defined.
